(** * fileLogger: a self-rotating log writer (shallow embedding of fileLogger.go)

    The Go package keeps one [FileLogger] per log stream.  The rotation
    policy ([isMustSplit]), the rotation itself ([split]), the two
    initialisers and the periodic check ([fileCheck], driven by
    [fileMonitor]) are embedded below as computations of a small
    state-and-panic monad over the logger's fields and a model of the
    operating system (directory entries, file sizes, open descriptors, the
    wall clock and a log of the calls made). *)

From Stdlib Require Import ZArith Lia Bool List Ascii String.
From stdpp Require Import base gmap strings pretty.

Open Scope Z_scope.

(** ** Machine integers *)

(** Go's [int] and [int64] are 64-bit two's complement on the platforms the
    package targets; arithmetic wraps around silently. *)
Definition wrap64 (z : Z) : Z := (z + 2 ^ 63) mod 2 ^ 64 - 2 ^ 63.

Definition MaxInt64 : Z := 2 ^ 63 - 1.
Definition MinInt64 : Z := - 2 ^ 63.

Definition in_int64 (z : Z) : Prop := MinInt64 <= z <= MaxInt64.

(** [strconv.Itoa]: decimal rendering with a leading minus sign. *)
Definition Itoa (i : Z) : string := pretty i.

(** ** Constants of the package *)

(** [DEFAULT_LOG_SCAN = 60], the period of the monitor in seconds. *)
Definition DEFAULT_LOG_SCAN : Z := 60.

(** [type UNIT int64] with [KB UNIT = 1 << (iota * 10)] at [iota = 1] and
    the next three constants repeating the expression at [iota = 2, 3, 4]. *)
Definition UNIT := Z.

Definition unit_at (iota : Z) : UNIT := wrap64 (Z.shiftl 1 (iota * 10)).

Definition KB : UNIT := unit_at 1.
Definition MB : UNIT := unit_at 2.
Definition GB : UNIT := unit_at 3.
Definition TB : UNIT := unit_at 4.

(** [type SplitType byte] with its two constants. *)
Inductive SplitType := SplitType_Size | SplitType_Daily.

(** ** Time *)

(** A reading of the wall clock: seconds of local time since the epoch. *)
Definition Time := Z.

(** The calendar day (days since the epoch) a reading falls on. *)
Definition dayOf (t : Time) : Z := t / 86400.

(** [time.Parse(DATEFORMAT, now.Format(DATEFORMAT))]: the layout
    ["2006-01-02"] keeps the calendar date only, and parsing it back gives
    midnight of that date, so the composite drops the time of day. *)
Definition truncateToDay (now : Time) : Time := 86400 * dayOf now.

(** [t.After(u)] *)
Definition After (t u : Time) : bool := u <? t.

(** Year, month and day of a day number (proleptic Gregorian calendar). *)
Definition civil (z : Z) : Z * Z * Z :=
  let z := z + 719468 in
  let era := z / 146097 in
  let doe := z - era * 146097 in
  let yoe := (doe - doe / 1460 + doe / 36524 - doe / 146096) / 365 in
  let doy := doe - (365 * yoe + yoe / 4 - yoe / 100) in
  let mp := (5 * doy + 2) / 153 in
  let d := doy - (153 * mp + 2) / 5 + 1 in
  let m := if mp <? 10 then mp + 3 else mp - 9 in
  (if m <=? 2 then yoe + era * 400 + 1 else yoe + era * 400, m, d).

Fixpoint zeros (n : nat) : string :=
  match n with O => "" | S n' => "0" +:+ zeros n' end.

Definition padded (width : nat) (z : Z) : string :=
  let s := Itoa z in zeros (width - String.length s) +:+ s.

(** [t.Format(DATEFORMAT)] with [DATEFORMAT = "2006-01-02"]. *)
Definition Format (t : Time) : string :=
  let '(y, m, d) := civil (dayOf t) in
  padded 4 y +:+ "-" +:+ padded 2 m +:+ "-" +:+ padded 2 d.

(** ** The logger and its environment *)

(** [*os.File]: an open-file description, named by its descriptor. *)
Record File := mkFile { fd : nat }.

(** [*log.Logger] as built by [log.New(out, prefix, flags)].  [out] is
    [None] when the [*os.File] handed to [log.New] was nil. *)
Record Logger := mkLogger { out : option File; lprefix : string; lflags : Z }.

(** [log.LstdFlags | log.Lmicroseconds] *)
Definition Ldate : Z := 1.
Definition Ltime : Z := 2.
Definition Lmicroseconds : Z := 4.
Definition LstdFlags : Z := Z.lor Ldate Ltime.

Definition log_New (o : option File) (p : string) (flags : Z) : Logger :=
  {| out := o; lprefix := p; lflags := flags |}.

(** The struct.  [mu] is the state of the mutex the field points to
    ([true] while it is write-locked); [date], [logFile] and [lg] are
    pointers and may be nil.  The source spells the file field [logfile]
    in four assignments and [logFile] elsewhere; the struct declares
    [logFile] only, and both spellings are read as that field. *)
Record FileLogger := mkFileLogger {
  splitType : SplitType;
  mu : bool;
  fileDir : string;
  fileName : string;
  suffix : Z;
  fileCount : Z;
  fileSize : Z;
  prefix : string;
  date : option Time;
  logFile : option File;
  lg : option Logger
}.

(** Calls made to the environment, in the order they happen.  [EvSplit]
    marks an entry into [split]; it has no effect of its own. *)
Inductive Event :=
| EvNow (t : Time)
| EvStat (p : string)
| EvMkdir (p : string)
| EvOpenFile (p : string)
| EvCreate (p : string)
| EvClose (h : File)
| EvRemove (p : string)
| EvRename (old new : string)
| EvPrintf (l : Logger) (msg : string)
| EvLock
| EvUnlock
| EvGo
| EvTicker (seconds : Z)
| EvSplit.

(** The operating system as the package sees it. *)
Record World := mkWorld {
  dirs : gset string;          (* existing directories *)
  names : gmap string nat;     (* directory entries: path of a file -> inode *)
  inodes : gmap nat Z;         (* inode -> size in bytes *)
  opened : gmap nat nat;       (* open descriptors -> inode *)
  next_ino : nat;
  next_fd : nat;
  clock : nat -> Time;         (* the successive readings of time.Now() *)
  reads : nat;                 (* how many readings were taken *)
  trace : list Event           (* calls made so far, latest first *)
}.

Record State := mkState { self : FileLogger; sys : World }.

(** Outcome of a call: normal return, a panic unwinding with its value, or
    a goroutine parked for ever on a mutex that is held. *)
Inductive Res (A : Type) :=
| Ok (a : A) (s : State)
| Panic (v : string) (s : State)
| Block (s : State).
Arguments Ok {A} a s.
Arguments Panic {A} v s.
Arguments Block {A} s.

Definition M (A : Type) := State -> Res A.

Definition ret {A} (a : A) : M A := fun s => Ok a s.

Definition bind {A B} (m : M A) (k : A -> M B) : M B :=
  fun s => match m s with
           | Ok a s' => k a s'
           | Panic v s' => Panic v s'
           | Block s' => Block s'
           end.

Notation "x <- m ;; k" := (bind m (fun x => k))
  (at level 100, m at next level, right associativity).
Notation "m ;; k" := (bind m (fun _ => k))
  (at level 100, right associativity).

Definition panic {A} (v : string) : M A := fun s => Panic v s.

(** [defer d] around [m]: [d] runs when [m] returns and when it panics. *)
Definition defer {A} (d : M unit) (m : M A) : M A :=
  fun s => match m s with
           | Ok a s' => (d ;; ret a) s'
           | Panic v s' => (d ;; panic v) s'
           | Block s' => Block s'
           end.

(** [defer func() { if err := recover(); err != nil { h err } }()] around
    [m]: a panic of [m] stops there and [h] runs on its value. *)
Definition recovering (h : string -> M unit) (m : M unit) : M unit :=
  fun s => match m s with
           | Ok a s' => Ok a s'
           | Panic v s' => h v s'
           | Block s' => Block s'
           end.

Definition nil_dereference : string :=
  "runtime error: invalid memory address or nil pointer dereference".
Definition divide_by_zero : string :=
  "runtime error: integer divide by zero".

(** Following a pointer that may be nil. *)
Definition deref {A} (p : option A) : M A :=
  match p with Some a => ret a | None => panic nil_dereference end.

(** [a % b] on [int]. *)
Definition go_rem (a b : Z) : M Z :=
  if b =? 0 then panic divide_by_zero else ret (wrap64 (Z.rem a b)).

(** *** Access to the receiver [f] *)

Definition get_self : M FileLogger := fun s => Ok (self s) s.

Definition modify_self (g : FileLogger -> FileLogger) : M unit :=
  fun s => Ok tt {| self := g (self s); sys := sys s |}.

Definition with_mu (v : bool) (f : FileLogger) : FileLogger :=
  mkFileLogger (splitType f) v (fileDir f) (fileName f) (suffix f)
    (fileCount f) (fileSize f) (prefix f) (date f) (logFile f) (lg f).
Definition with_suffix (v : Z) (f : FileLogger) : FileLogger :=
  mkFileLogger (splitType f) (mu f) (fileDir f) (fileName f) v
    (fileCount f) (fileSize f) (prefix f) (date f) (logFile f) (lg f).
Definition with_date (v : option Time) (f : FileLogger) : FileLogger :=
  mkFileLogger (splitType f) (mu f) (fileDir f) (fileName f) (suffix f)
    (fileCount f) (fileSize f) (prefix f) v (logFile f) (lg f).
Definition with_logFile (v : option File) (f : FileLogger) : FileLogger :=
  mkFileLogger (splitType f) (mu f) (fileDir f) (fileName f) (suffix f)
    (fileCount f) (fileSize f) (prefix f) (date f) v (lg f).
Definition with_lg (v : option Logger) (f : FileLogger) : FileLogger :=
  mkFileLogger (splitType f) (mu f) (fileDir f) (fileName f) (suffix f)
    (fileCount f) (fileSize f) (prefix f) (date f) (logFile f) v.

(** ** The environment's calls *)

Definition record (e : Event) (w : World) : World :=
  mkWorld (dirs w) (names w) (inodes w) (opened w) (next_ino w) (next_fd w)
    (clock w) (reads w) (e :: trace w).

Definition with_dirs (d : gset string) (w : World) : World :=
  mkWorld d (names w) (inodes w) (opened w) (next_ino w) (next_fd w)
    (clock w) (reads w) (trace w).
Definition with_names (n : gmap string nat) (w : World) : World :=
  mkWorld (dirs w) n (inodes w) (opened w) (next_ino w) (next_fd w)
    (clock w) (reads w) (trace w).
Definition with_inodes (i : gmap nat Z) (w : World) : World :=
  mkWorld (dirs w) (names w) i (opened w) (next_ino w) (next_fd w)
    (clock w) (reads w) (trace w).
Definition with_opened (o : gmap nat nat) (w : World) : World :=
  mkWorld (dirs w) (names w) (inodes w) o (next_ino w) (next_fd w)
    (clock w) (reads w) (trace w).

(** A call to the environment: what it returns and what it changes. *)
Definition call {A} (result : World -> A) (effect : World -> World) : M A :=
  fun s => Ok (result (sys s)) {| self := self s; sys := effect (sys s) |}.

(** [time.Now()] *)
Definition now_of (w : World) : Time := clock w (reads w).

Definition advance (w : World) : World :=
  mkWorld (dirs w) (names w) (inodes w) (opened w) (next_ino w) (next_fd w)
    (clock w) (S (reads w)) (trace w).

Definition time_Now : M Time :=
  call now_of (fun w => record (EvNow (now_of w)) (advance w)).

(** The text of a path before its last slash; empty when there is none. *)
Fixpoint dirname_aux (p : string) : option string :=
  match p with
  | EmptyString => None
  | String c r =>
      match dirname_aux r with
      | Some d => Some (String c d)
      | None => if Ascii.eqb c "/"%char then Some EmptyString else None
      end
  end.

Definition dirname (p : string) : string := default EmptyString (dirname_aux p).

Definition is_file (w : World) (p : string) : bool :=
  bool_decide (is_Some (names w !! p)).
Definition is_dir (w : World) (p : string) : bool :=
  bool_decide (p ∈ dirs w).

(** The directory a new entry [p] would go into is there (the working
    directory and the root, both written as the empty prefix, always are). *)
Definition parent_ok (w : World) (p : string) : bool :=
  bool_decide (dirname p = EmptyString) || is_dir w (dirname p).

(** [os.Stat(p)] succeeds. *)
Definition stat_ok (w : World) (p : string) : bool := is_file w p || is_dir w p.

(** Size reported for [p]; [None] when [os.Stat] fails. *)
Definition stat_size (w : World) (p : string) : option Z :=
  match names w !! p with
  | Some i => Some (default 0 (inodes w !! i))
  | None => None
  end.

(** [os.Mkdir(p, 0755)] *)
Definition mkdir_ok (w : World) (p : string) : bool :=
  negb (stat_ok w p) && parent_ok w p.

Definition os_Mkdir (p : string) : M bool :=
  call (fun w => mkdir_ok w p)
       (fun w => record (EvMkdir p)
                   (with_dirs (if mkdir_ok w p then {[p]} ∪ dirs w else dirs w) w)).

(** [os.OpenFile(p, os.O_RDWR|os.O_APPEND|os.O_CREATE, 0666)] and
    [os.Create(p)] succeed on a file that is there, and on a path that is
    free in a directory that is there. *)
Definition open_ok (w : World) (p : string) : bool :=
  is_file w p || (negb (is_dir w p) && parent_ok w p).

(** The inode such a call ends up on: the one [p] names, or a new one. *)
Definition inode_for (w : World) (p : string) : option nat :=
  match names w !! p with
  | Some i => Some i
  | None => if open_ok w p then Some (next_ino w) else None
  end.

(** The environment after the call: [p] names the inode, a new descriptor
    is open on it, and the file is empty when it is new or when [cut] asks
    for an existing one to be emptied.  Nothing changes when the call
    fails. *)
Definition opening (cut : bool) (p : string) (w : World) : World :=
  mkWorld (dirs w)
    match inode_for w p with
    | Some i => <[p := i]> (names w)
    | None => names w
    end
    match inode_for w p with
    | Some i => if cut || negb (is_file w p)
                then <[i := 0]> (inodes w) else inodes w
    | None => inodes w
    end
    match inode_for w p with
    | Some i => <[next_fd w := i]> (opened w)
    | None => opened w
    end
    match inode_for w p with
    | Some _ => if is_file w p then next_ino w else S (next_ino w)
    | None => next_ino w
    end
    match inode_for w p with
    | Some _ => S (next_fd w)
    | None => next_fd w
    end
    (clock w) (reads w) (trace w).

(** The handle the call returns, nil when it fails (the source discards
    the error). *)
Definition handle_for (w : World) (p : string) : option File :=
  match inode_for w p with
  | Some _ => Some (mkFile (next_fd w))
  | None => None
  end.

(** [os.OpenFile(p, os.O_RDWR|os.O_APPEND|os.O_CREATE, 0666)] *)
Definition os_OpenFile (p : string) : M (option File) :=
  call (fun w => handle_for w p)
       (fun w => record (EvOpenFile p) (opening false p w)).

(** [os.Create(p)]: an existing file is cut to length 0. *)
Definition os_Create (p : string) : M (option File) :=
  call (fun w => handle_for w p)
       (fun w => record (EvCreate p) (opening true p w)).

(** [h.Close()] *)
Definition File_Close (h : File) : M unit :=
  call (fun _ => tt)
       (fun w => record (EvClose h) (with_opened (delete (fd h) (opened w)) w)).

(** [os.Remove(p)] on a file; the entry goes, the error is discarded. *)
Definition os_Remove (p : string) : M unit :=
  call (fun _ => tt)
       (fun w => record (EvRemove p) (with_names (delete p (names w)) w)).

(** [os.Rename(old, new)]: fails when [old] has no entry; otherwise [new]
    takes over the inode of [old], replacing what [new] named. *)
Definition rename_error (w : World) (old new : string) : option string :=
  match names w !! old with
  | Some _ => None
  | None => Some ("rename " +:+ old +:+ " " +:+ new +:+ ": no such file or directory")
  end.

Definition renamed (w : World) (old new : string) : gmap string nat :=
  match names w !! old with
  | Some i => <[new := i]> (delete old (names w))
  | None => names w
  end.

Definition os_Rename (old new : string) : M (option string) :=
  call (fun w => rename_error w old new)
       (fun w => record (EvRename old new) (with_names (renamed w old new) w)).

(** Width of the header [log] puts before a message. *)
Definition header_width (flags : Z) : Z :=
  (if Z.testbit flags 0 then 11 else 0) +
  (if Z.testbit flags 2 then 16 else if Z.testbit flags 1 then 9 else 0).

Fixpoint ends_with_newline (s : string) : bool :=
  match s with
  | EmptyString => false
  | String c EmptyString => Ascii.eqb c "010"%char
  | String _ r => ends_with_newline r
  end.

(** Bytes of one record: prefix, header, message, closing newline. *)
Definition record_size (l : Logger) (msg : string) : Z :=
  Z.of_nat (String.length (lprefix l)) + header_width (lflags l)
  + Z.of_nat (String.length msg) + (if ends_with_newline msg then 0 else 1).

(** [l.Printf(...)] with the formatted text [msg]: the record goes to the
    file behind [l]'s handle when that handle is open; a write error (nil
    or closed handle) is dropped by [log]. *)
Definition written (l : Logger) (msg : string) (w : World) : World :=
  with_inodes
    match out l with
    | Some h =>
        match opened w !! fd h with
        | Some i => <[i := default 0 (inodes w !! i) + record_size l msg]> (inodes w)
        | None => inodes w
        end
    | None => inodes w
    end w.

Definition Logger_Printf (l : Logger) (msg : string) : M unit :=
  call (fun _ => tt) (fun w => record (EvPrintf l msg) (written l msg w)).

(** [f.mu.Lock()] and [f.mu.Unlock()] *)
Definition mu_Lock : M unit :=
  fun s => if mu (self s) then Block s
           else Ok tt {| self := with_mu true (self s); sys := record EvLock (sys s) |}.

Definition mu_Unlock : M unit :=
  fun s => Ok tt {| self := with_mu false (self s); sys := record EvUnlock (sys s) |}.

(** A mark in the log of calls. *)
Definition mark (e : Event) : M unit := call (fun _ => tt) (record e).

(** ** Helpers of the package that live outside fileLogger.go *)

Module Util.

(** Modelled from the spec: [joinFilePath] is not in fileLogger.go; the
    spec gives the active file as [{directory}/{fileName}]. *)
Definition joinFilePath (dir name : string) : string := dir +:+ "/" +:+ name.

(** Modelled from the spec: [isExist] is not in fileLogger.go; the spec
    calls it a thin existence check of the file system. *)
Definition isExist (p : string) : M bool :=
  call (fun w => stat_ok w p) (record (EvStat p)).

(** Modelled from the spec: [fileSize] is not in fileLogger.go; the spec
    has the policy read the on-disk size of the file and treat a missing
    or unreadable file as size zero. *)
Definition fileSize (p : string) : M Z :=
  call (fun w => default 0 (stat_size w p)) (record (EvStat p)).

End Util.

(** ** fileLogger.go *)

Definition logger_flags : Z := Z.lor LstdFlags Lmicroseconds.

(** [for i := lo; i <= hi; i++ { body }], where the body says whether it
    left through [break].  [n] bounds the number of rounds; the caller
    passes the number of integers between [lo] and [hi]. *)
Inductive Ctl := Break | Continue.

Fixpoint for_to (n : nat) (i hi : Z) (body : Z -> M Ctl) : M unit :=
  match n with
  | O => ret tt
  | S n' =>
      if i <=? hi then
        c <- body i ;;
        match c with
        | Break => ret tt
        | Continue => for_to n' (wrap64 (i + 1)) hi body
        end
      else ret tt
  end.

(** [logFile := joinFilePath(f.fileDir, f.fileName)], the path of the active
    file; the functions below bind it as [logPath], the name [logFile]
    being the field's. *)
Definition logFilePath (f : FileLogger) : string :=
  Util.joinFilePath (fileDir f) (fileName f).

(** [func (f *FileLogger) isMustSplit() bool] *)
Definition isMustSplit : M bool :=
  f <- get_self ;;
  match splitType f with
  | SplitType_Size =>
      let logPath := logFilePath f in
      if 1 <? fileCount f then
        size <- Util.fileSize logPath ;;
        if fileSize f <=? size then ret true else ret false
      else ret false
  | SplitType_Daily =>
      now <- time_Now ;;
      let t := truncateToDay now in
      d <- deref (date f) ;;
      if After t d then ret true else ret false
  end.

Definition close_if_open (h : option File) : M unit :=
  match h with Some file => File_Close file | None => ret tt end.

(** [func (f *FileLogger) split()] *)
Definition split : M unit :=
  mark EvSplit ;;
  f <- get_self ;;
  let logPath := logFilePath f in
  match splitType f with
  | SplitType_Size =>
      r <- go_rem (suffix f) (fileCount f) ;;
      modify_self (with_suffix (wrap64 (r + 1))) ;;
      f <- get_self ;;
      close_if_open (logFile f) ;;
      let logFileBak := logPath +:+ "." +:+ Itoa (suffix f) in
      e <- Util.isExist logFileBak ;;
      (if e then os_Remove logFileBak else ret tt) ;;
      _ <- os_Rename logPath logFileBak ;;
      h <- os_Create logPath ;;
      modify_self (with_logFile h) ;;
      modify_self (with_lg (Some (log_New h (prefix f) logger_flags)))
  | SplitType_Daily =>
      d <- deref (date f) ;;
      let logFileBak := logPath +:+ "." +:+ Format d in
      e <- Util.isExist logFileBak ;;
      due <- (if negb e then isMustSplit else ret false) ;;
      if due then
        close_if_open (logFile f) ;;
        err <- os_Rename logPath logFileBak ;;
        match err with
        | Some text =>
            l <- deref (lg f) ;;
            Logger_Printf l ("FileLogger rename error: " +:+ text)
        | None => ret tt
        end ;;
        now <- time_Now ;;
        modify_self (with_date (Some (truncateToDay now))) ;;
        h <- os_Create logPath ;;
        modify_self (with_logFile h) ;;
        modify_self (with_lg (Some (log_New h (prefix f) logger_flags)))
      else ret tt
  end.

(** The branch both initialisers share: open the active file for
    appending, creating the directory first when it is missing. *)
Definition open_active (f : FileLogger) (logPath : string) : M unit :=
  e <- Util.isExist (fileDir f) ;;
  (if negb e then _ <- os_Mkdir (fileDir f) ;; ret tt else ret tt) ;;
  h <- os_OpenFile logPath ;;
  modify_self (with_logFile h) ;;
  modify_self (with_lg (Some (log_New h (prefix f) logger_flags))).

(** [go f.fileMonitor()]: the monitor starts as a goroutine of its own;
    its rounds are [fileMonitor] below. *)
Definition go_fileMonitor : M unit := mark EvGo.

(** The scan at the head of [initLoggerBySize]:
    [for i := 1; i <= f.fileCount; i++ { if isExist(..) { f.suffix = i }; break }] *)
Definition scan_backups (logPath : string) : M unit :=
  f <- get_self ;;
  for_to (Z.to_nat (fileCount f)) 1 (fileCount f)
    (fun i =>
       e <- Util.isExist (logPath +:+ "." +:+ Itoa i) ;;
       (if e then modify_self (with_suffix i) else ret tt) ;;
       ret Break).

(** [func (f *FileLogger) initLoggerBySize()] *)
Definition initLoggerBySize : M unit :=
  mu_Lock ;;
  defer mu_Unlock
    (f <- get_self ;;
     let logPath := logFilePath f in
     scan_backups logPath ;;
     must <- isMustSplit ;;
     (if negb must then open_active f logPath else split) ;;
     go_fileMonitor).

(** [func (f *FileLogger) initLoggerByDaily()] *)
Definition initLoggerByDaily : M unit :=
  now <- time_Now ;;
  let t := truncateToDay now in
  modify_self (with_date (Some t)) ;;
  mu_Lock ;;
  defer mu_Unlock
    (f <- get_self ;;
     let logPath := logFilePath f in
     must <- isMustSplit ;;
     (if negb must then open_active f logPath else split) ;;
     go_fileMonitor).

(** [func (f *FileLogger) initLogger()] *)
Definition initLogger : M unit :=
  f <- get_self ;;
  match splitType f with
  | SplitType_Size => initLoggerBySize
  | SplitType_Daily => initLoggerByDaily
  end.

(** [func NewSizeLogger(fileDir, fileName, prefix string, fileCount int,
    fileSize int64, unit UNIT) *FileLogger]: the logger returned is [self]
    of the final state. *)
Definition NewSizeLogger (fileDir fileName prefix : string) (fileCount : Z)
    (fileSize : Z) (unit : UNIT) (w : World) : Res Datatypes.unit :=
  let sizeLogger :=
    {| splitType := SplitType_Size; mu := false;
       fileDir := fileDir; fileName := fileName;
       suffix := 0; fileCount := fileCount;
       fileSize := wrap64 (fileSize * unit);
       prefix := prefix; date := None; logFile := None; lg := None |} in
  initLogger {| self := sizeLogger; sys := w |}.

(** [func NewDefaultLogger(fileDir, fileName string) *FileLogger] *)
Definition NewDefaultLogger (fileDir fileName : string) (w : World) : Res unit :=
  NewSizeLogger fileDir fileName "" 10 50 MB w.

(** [func NewDailyLogger(fileDir, fileName, prefix string) *FileLogger] *)
Definition NewDailyLogger (fileDir fileName prefix : string) (w : World) : Res unit :=
  let dailyLogger :=
    {| splitType := SplitType_Daily; mu := false;
       fileDir := fileDir; fileName := fileName;
       suffix := 0; fileCount := 0; fileSize := 0;
       prefix := prefix; date := None; logFile := None; lg := None |} in
  initLogger {| self := dailyLogger; sys := w |}.

(** The deferred function of [fileCheck]. *)
Definition fileCheck_recover (err : string) : M unit :=
  f <- get_self ;;
  l <- deref (lg f) ;;
  Logger_Printf l ("FileLogger catch panic in fileCheck: " +:+ err).

(** What [fileCheck] does below its first [defer]. *)
Definition fileCheck_body : M unit :=
  must <- isMustSplit ;;
  if must then
    mu_Lock ;;
    defer mu_Unlock split
  else ret tt.

(** [func (f *FileLogger) fileCheck()] *)
Definition fileCheck : M unit := recovering fileCheck_recover fileCheck_body.

(** [func (f *FileLogger) fileMonitor()]: the ticker is set to
    [DEFAULT_LOG_SCAN] seconds and every tick runs [fileCheck]; the loop
    has no exit, and [fileMonitor n] is the monitor up to its [n]-th tick. *)
Definition Second : Z := 1000000000.

Fixpoint ticking (n : nat) : M unit :=
  match n with
  | O => ret tt
  | S n' => fileCheck ;; ticking n'
  end.

Definition fileMonitor (n : nat) : M unit :=
  let logScan := DEFAULT_LOG_SCAN in
  mark (EvTicker (wrap64 (logScan * Second))) ;;
  ticking n.

(** ** Reading a run *)

(** The calls made so far, earliest first. *)
Definition history (w : World) : list Event := rev (trace w).

(** The state a call ends in, however it ends. *)
Definition final {A} (r : Res A) : State :=
  match r with Ok _ s => s | Panic _ s => s | Block s => s end.

(** The size the policy reads for a path. *)
Definition on_disk_size (w : World) (p : string) : Z := default 0 (stat_size w p).

(** The directory entries, sizes, descriptors and directories are the same. *)
Definition same_files (w w' : World) : Prop :=
  dirs w' = dirs w /\ names w' = names w /\ inodes w' = inodes w /\
  opened w' = opened w.

(** Calls that only look: the clock, [os.Stat], and the mark of [split]. *)
Definition observes (e : Event) : bool :=
  match e with
  | EvNow _ | EvStat _ | EvSplit => true
  | _ => false
  end.


(** ** Sample configurations *)

(** A clock giving the readings of [l] in turn and [rest] ever after. *)
Definition readings (l : list Time) (rest : Time) : nat -> Time :=
  fun n => nth n l rest.

(** A clock read once a minute, starting on 2023-11-14 at 22:13:20. *)
Definition sample_clock : nat -> Time :=
  readings [1700000000; 1700000060; 1700000120; 1700000180] 1700000240.

(** A directory [logs] holding an active file of 5000 bytes and the three
    backups [app.log.1], [app.log.2] and [app.log.3]. *)
Definition sample_world : World :=
  mkWorld {["logs"]}
    (<["logs/app.log" := 0%nat]> (<["logs/app.log.1" := 1%nat]>
       (<["logs/app.log.2" := 2%nat]> (<["logs/app.log.3" := 3%nat]> ∅))))
    (<[0%nat := 5000]> (<[1%nat := 10]> (<[2%nat := 20]> (<[3%nat := 30]> ∅))))
    ∅ 4 0 sample_clock 0 [].

(** A size-mode logger on [logs/app.log] as [NewSizeLogger] fills it in,
    with the backup index, the number of backups and the threshold given. *)
Definition size_logger (index count threshold : Z) : FileLogger :=
  {| splitType := SplitType_Size; mu := false;
     fileDir := "logs"; fileName := "app.log";
     suffix := index; fileCount := count; fileSize := threshold;
     prefix := ""; date := None; logFile := None; lg := None |}.

(** The calls [split] makes on its way: closing the handle it holds, and
    removing a backup that is in the way. *)
Definition closing (h : option File) : list Event :=
  match h with Some file => [EvClose file] | None => [] end.

Definition removing (w : World) (bak : string) : list Event :=
  if stat_ok w bak then [EvRemove bak] else [].

(** The backup index [split] moves to in size mode. *)
Definition next_index (f : FileLogger) : Z :=
  wrap64 (wrap64 (Z.rem (suffix f) (fileCount f)) + 1).

(** The path of the size-mode backup with a given index. *)
Definition backup_path (f : FileLogger) (index : Z) : string :=
  logFilePath f +:+ "." +:+ Itoa index.

(** A daily-mode logger on [logs/app.log] whose active file was opened for
    the day of the reading [opened_on]. *)
Definition daily_logger (opened_on : Time) (h : option File) (l : option Logger)
  : FileLogger :=
  {| splitType := SplitType_Daily; mu := false;
     fileDir := "logs"; fileName := "app.log";
     suffix := 0; fileCount := 0; fileSize := 0;
     prefix := ""; date := Some (truncateToDay opened_on);
     logFile := h; lg := l |}.

(** [sample_world] two days and a bit after the first reading of
    [sample_clock], with the active file open on descriptor 0. *)
Definition later_world : World :=
  mkWorld (dirs sample_world) (names sample_world) (inodes sample_world)
    (<[0%nat := 0%nat]> ∅) 4 1
    (readings [1700172800; 1700172860; 1700172920; 1700172980] 1700173040) 0 [].

(** The path of the daily-mode backup for the stored date [d]. *)
Definition daily_backup (f : FileLogger) (d : Time) : string :=
  logFilePath f +:+ "." +:+ Format d.

(** The text [split] hands to [Printf] when the rename fails. *)
Definition rename_report (text : string) : string :=
  "FileLogger rename error: " +:+ text.

(** The report [split] makes of the outcome [err] of its rename. *)
Definition reporting (f : FileLogger) (err : option string) : list Event :=
  match err, lg f with
  | Some text, Some l => [EvPrintf l (rename_report text)]
  | _, _ => []
  end.

(** A daily-mode logger whose file was opened on 2023-11-14, met two days
    later with its active file open on descriptor 0. *)
Definition stale_daily : State :=
  {| self := daily_logger 1700000000 (Some (mkFile 0))
               (Some (log_New (Some (mkFile 0)) "" logger_flags));
     sys := later_world |}.



(** The state after [f.mu.Lock()] went through, and after [f.mu.Unlock()]. *)
Definition locked (s : State) : State :=
  {| self := with_mu true (self s); sys := record EvLock (sys s) |}.

Definition unlocked (s : State) : State :=
  {| self := with_mu false (self s); sys := record EvUnlock (sys s) |}.

(** What no function of the package changes once the logger is built: the
    mode, the limits and the paths; and a line-writer, once set, is only
    ever replaced by another. *)
Definition same_config (f f' : FileLogger) : Prop :=
  splitType f' = splitType f /\ fileCount f' = fileCount f /\
  fileSize f' = fileSize f /\ logFilePath f' = logFilePath f /\
  (is_Some (lg f) -> is_Some (lg f')).

(** Readings of the clock and of the file system. *)
Definition is_read (e : Event) : bool :=
  match e with
  | EvNow _ | EvStat _ => true
  | _ => false
  end.

(** The text the deferred function of [fileCheck] hands to [Printf]. *)
Definition catch_report (err : string) : string :=
  "FileLogger catch panic in fileCheck: " +:+ err.

(** The state after [l.Printf] of the text [msg]. *)
Definition printed (l : Logger) (msg : string) (s : State) : State :=
  {| self := self s; sys := record (EvPrintf l msg) (written l msg (sys s)) |}.

(** The order of events as C7 words it: [fileCheck] returns, and the first
    call it made was [f.mu.Lock()]. *)
Definition locks_first (s : State) : Prop :=
  exists s' rest,
    fileCheck s = Ok tt s' /\ history (sys s') = history (sys s) ++ EvLock :: rest.

(** A size-mode logger with three backups and a threshold of 1 KB, over an
    active file of 5000 bytes. *)
Definition oversized : State :=
  {| self := size_logger 0 3 1024; sys := sample_world |}.

(** The calls of the branch that opens the active file, before the
    [os.OpenFile] itself: a look at the directory, made when missing. *)
Definition preparing (w : World) (dir : string) : list Event :=
  EvStat dir :: if stat_ok w dir then [] else [EvMkdir dir].

(** The one look the scan of the backups takes. *)
Definition scanning (f : FileLogger) : list Event :=
  if 1 <=? fileCount f then [EvStat (backup_path f 1)] else [].

(** The logger after the scan. *)
Definition scanned (f : FileLogger) (w : World) : FileLogger :=
  if (1 <=? fileCount f) && stat_ok w (backup_path f 1)
  then with_suffix 1 f else f.

(** The verdict of the size policy. *)
Definition size_due (f : FileLogger) (w : World) : bool :=
  (1 <? fileCount f) && (fileSize f <=? on_disk_size w (logFilePath f)).

(** The threshold as C9 words it: the exact product of the size and the
    unit handed to [NewSizeLogger]. *)
Definition exact_threshold (dir name pre : string) (count size : Z)
    (unit : UNIT) (w : World) : Prop :=
  exists s,
    NewSizeLogger dir name pre count size unit w = Ok tt s /\
    fileSize (self s) = size * unit.


(** [dateless_daily] without a line-writer. *)
Definition bare_daily : State :=
  {| self := mkFileLogger SplitType_Daily false "logs" "app.log" 0 0 0 ""
               None None None;
     sys := later_world |}.

(** What the branch that opens the active file has made of the environment
    [w] when it reaches its [os.OpenFile]: the directory [dir] is there if
    it was missing and could be made, and nothing else is changed. *)
Definition prepared (w : World) (dir : string) (W : World) : Prop :=
  dirs W = (if mkdir_ok w dir then {[dir]} ∪ dirs w else dirs w) /\
  names W = names w /\ inodes W = inodes w /\ opened W = opened w /\
  next_ino W = next_ino w /\ next_fd W = next_fd w.

(** The logger a constructor returns after opening the active file [p],
    built on the logger [f] it had at that point. *)
Definition opened_on (W : World) (p pre : string) (f : FileLogger) : FileLogger :=
  with_mu false
    (with_lg (Some (log_New (handle_for W p) pre logger_flags))
       (with_logFile (handle_for W p) f)).

(** The environment a constructor leaves after opening the active file
    [p] in the environment [W]. *)
Definition opened_in (W : World) (p : string) : World :=
  record EvUnlock (record EvGo (record (EvOpenFile p) (opening false p W))).

(** An environment where neither [logs] nor anything in it exists yet. *)
Definition bare_world : World :=
  mkWorld ∅ ∅ ∅ ∅ 0 0 sample_clock 0 [].

(** An environment where the directory [var/logs] is asked for and [var]
    itself is missing. *)
Definition nested_dir : string := "var/logs".

(** [stale_daily] when a file already sits at the backup path of the
    stored date. *)
Definition archived_daily : State :=
  {| self := self stale_daily;
     sys := with_names (<["logs/app.log.2023-11-14" := 4%nat]> (names later_world))
              later_world |}.

(** An empty environment whose clock passes midnight between the first
    reading and the second: 23:59:59 on 2023-11-14, then 00:00:01 and
    after. *)
Definition midnight_world : World :=
  mkWorld {["logs"]} ∅ ∅ ∅ 0 0
    (readings [1700006399; 1700006401; 1700006402] 1700006403) 0 [].
(** * Properties *)

#[local] Arguments wrap64 : simpl never.
#[local] Arguments truncateToDay : simpl never.
#[local] Arguments After : simpl never.
#[local] Arguments Format : simpl never.
#[local] Arguments Itoa : simpl never.
#[local] Arguments logFilePath : simpl never.
#[local] Arguments String.append : simpl never.
#[local] Arguments Z.rem : simpl never.
#[local] Arguments Z.add : simpl never.
#[local] Arguments Z.mul : simpl never.
#[local] Arguments Z.ltb : simpl never.
#[local] Arguments Z.leb : simpl never.
#[local] Arguments Z.eqb : simpl never.
#[local] Arguments Z.to_nat : simpl never.
#[local] Arguments lookup : simpl never.
#[local] Arguments insert : simpl never.
#[local] Arguments delete : simpl never.
#[local] Arguments union : simpl never.
#[local] Arguments bool_decide : simpl never.
#[local] Arguments record_size : simpl never.
#[local] Arguments isMustSplit : simpl never.
#[local] Arguments split : simpl never.
#[local] Arguments scan_backups : simpl never.
#[local] Arguments open_active : simpl never.
#[local] Arguments initLoggerBySize : simpl never.
#[local] Arguments initLoggerByDaily : simpl never.
#[local] Arguments initLogger : simpl never.
#[local] Arguments fileCheck_body : simpl never.
#[local] Arguments fileCheck : simpl never.
#[local] Arguments ticking : simpl never.
#[local] Arguments fileMonitor : simpl never.

(** Unfolding the monad and the environment's calls down to the fields. *)
Ltac unfold_calls :=
  unfold Util.isExist, Util.fileSize, os_Mkdir, os_OpenFile, os_Create,
    File_Close, os_Remove, os_Rename, Logger_Printf, time_Now, mark,
    go_fileMonitor, close_if_open, go_rem, deref, panic, mu_Lock, mu_Unlock,
    modify_self, get_self, call, defer, recovering, bind, ret in *.

(** The environment's observers are unfolded; its updates are left to
    [cbn], which opens them where a field is read. *)
Ltac observers :=
  unfold on_disk_size, stat_size, stat_ok, mkdir_ok, open_ok, parent_ok,
    rename_error, renamed, handle_for, inode_for, is_file, is_dir, now_of,
    history, same_files in *.

Ltac run := unfold_calls; cbn in *; observers; cbn in *.

Lemma wrap64_id z : in_int64 z -> wrap64 z = z.
Proof.
  unfold in_int64, MinInt64, MaxInt64, wrap64. intros H.
  rewrite Z.mod_small; lia.
Qed.

Lemma append_empty_r (s : string) : s +:+ "" = s.
Proof. induction s as [|c s IH]; cbn; [reflexivity|]. unfold String.app in *. cbn. now rewrite IH. Qed.

(** A backup path never coincides with the active path. *)
Lemma backup_path_differs (p ext : string) : p +:+ "." +:+ ext <> p.
Proof.
  intros H. rewrite <- (append_empty_r p) in H at 2.
  apply String.app_inj in H. discriminate H.
Qed.

(** *** The policy *)

Lemma isMustSplit_size_run (f : FileLogger) (w : World) :
  splitType f = SplitType_Size ->
  isMustSplit {| self := f; sys := w |} =
  if 1 <? fileCount f
  then Ok (fileSize f <=? on_disk_size w (logFilePath f))
          {| self := f; sys := record (EvStat (logFilePath f)) w |}
  else Ok false {| self := f; sys := w |}.
Proof.
  intros Hs. unfold isMustSplit. unfold_calls. cbn. rewrite Hs.
  destruct (1 <? fileCount f); [|reflexivity].
  unfold on_disk_size. cbn.
  destruct (fileSize f <=? default 0 (stat_size w (logFilePath f))); reflexivity.
Qed.

Lemma isMustSplit_daily_run (f : FileLogger) (w : World) (d : Time) :
  splitType f = SplitType_Daily -> date f = Some d ->
  isMustSplit {| self := f; sys := w |} =
  Ok (After (truncateToDay (now_of w)) d)
     {| self := f;
        sys := record (EvNow (now_of w)) (advance w) |}.
Proof.
  intros Hs Hd. unfold isMustSplit. unfold_calls. cbn. rewrite Hs, Hd. cbn.
  destruct (After (truncateToDay (now_of w)) d); reflexivity.
Qed.

(** C1: in size mode [isMustSplit] returns true exactly when [fileCount]
    exceeds 1 and the size on disk of the active file has reached the
    [fileSize] threshold; it leaves the logger as it was.  With
    [fileCount = 1] it returns false whatever the size, and [fileCheck]
    then returns without touching anything, so no rotation takes place. *)
Theorem isMustSplit_size_policy (s : State) :
  splitType (self s) = SplitType_Size ->
  exists b s',
    isMustSplit s = Ok b s' /\ self s' = self s /\
    (b = true <->
     1 < fileCount (self s) /\
     fileSize (self s) <= on_disk_size (sys s) (logFilePath (self s))) /\
    (fileCount (self s) = 1 -> b = false /\ fileCheck s = Ok tt s).
Proof.
  destruct s as [f w]. cbn. intros Hs.
  pose proof (isMustSplit_size_run f w Hs) as Hrun.
  destruct (1 <? fileCount f) eqn:Hc.
  - apply Z.ltb_lt in Hc.
    eexists _, _. split; [exact Hrun|]. split; [reflexivity|]. split.
    + rewrite Z.leb_le. intuition.
    + intros H1. lia.
  - apply Z.ltb_ge in Hc.
    eexists _, _. split; [exact Hrun|]. split; [reflexivity|]. split.
    + split; [discriminate|]. intros [H _]. lia.
    + intros _. split; [reflexivity|].
      unfold fileCheck, fileCheck_body, recovering, bind. now rewrite Hrun.
Qed.

Lemma isMustSplit_size_policy_witness :
  splitType (self {| self := size_logger 0 3 1024; sys := sample_world |})
    = SplitType_Size /\
  exists s', isMustSplit {| self := size_logger 0 3 1024; sys := sample_world |}
             = Ok true s'.
Proof.
  split; [reflexivity|].
  destruct (isMustSplit_size_policy
              {| self := size_logger 0 3 1024; sys := sample_world |} eq_refl)
    as (b & s' & Hrun & _ & Hiff & _).
  exists s'. rewrite Hrun. f_equal. apply Hiff.
  split; [reflexivity|]. vm_compute. discriminate.
Defined.

(** *** Rotation by size *)

Ltac lookups :=
  repeat first
    [ rewrite lookup_delete_eq
    | rewrite lookup_insert_eq
    | rewrite lookup_delete_ne by (assumption || (apply not_eq_sym; assumption))
    | rewrite lookup_insert_ne by (assumption || (apply not_eq_sym; assumption)) ].

Ltac chain := rewrite <- ?app_assoc; cbn; rewrite <- ?app_assoc; cbn.

Ltac branches :=
  repeat (match goal with
          | |- context [if ?c then _ else _] => destruct c eqn:?
          end; cbn).

Lemma not_stat_no_entry (n : gmap string nat) (d : gset string) (p : string) :
  bool_decide (is_Some (n !! p)) || bool_decide (p ∈ d) = false -> n !! p = None.
Proof.
  intros H. apply orb_false_elim in H as [H _].
  apply bool_decide_eq_false in H. now apply eq_None_not_Some.
Qed.

Lemma split_size_run (f : FileLogger) (w : World) :
  splitType f = SplitType_Size -> fileCount f <> 0 ->
  exists h w',
    split {| self := f; sys := w |} =
    Ok tt {| self := with_lg (Some (log_New h (prefix f) logger_flags))
                       (with_logFile h (with_suffix (next_index f) f));
             sys := w' |} /\
    history w' =
      history w ++ EvSplit :: closing (logFile f)
        ++ EvStat (backup_path f (next_index f))
        :: removing w (backup_path f (next_index f))
        ++ [EvRename (logFilePath f) (backup_path f (next_index f));
            EvCreate (logFilePath f)] /\
    names w' !! backup_path f (next_index f) = names w !! logFilePath f /\
    (forall p, p <> backup_path f (next_index f) -> p <> logFilePath f ->
               names w' !! p = names w !! p) /\
    dirs w' = dirs w /\ clock w' = clock w /\ reads w' = reads w.
Proof.
  intros Hs Hc. destruct w as [d n i o ni nf c r t].
  unfold split, next_index, backup_path, removing. run. rewrite Hs.
  destruct (fileCount f =? 0) eqn:E; [lia|]. cbn.
  set (idx := wrap64 (wrap64 (suffix f `rem` fileCount f) + 1)).
  set (bak := logFilePath f +:+ "." +:+ Itoa idx).
  assert (Hne : bak <> logFilePath f) by apply backup_path_differs.
  destruct (logFile f) as [file|]; cbn;
    destruct (bool_decide (is_Some (n !! bak)) || bool_decide (bak ∈ d)) eqn:Hstat;
    cbn; lookups;
    destruct (n !! logFilePath f) as [ino|] eqn:Hact; cbn; lookups; cbn.
  all: try rewrite Hact; cbn.
  all: try apply not_stat_no_entry in Hstat.
  all: branches.
  all: eexists _, _; (split; [reflexivity|]); cbn.
  all: repeat split; try (chain; reflexivity); try reflexivity.
  all: try intros p Hp1 Hp2; destruct (inode_for _ _); lookups;
    try reflexivity; try (symmetry; assumption); try assumption.
Qed.

Lemma next_index_in_range (f : FileLogger) :
  1 <= fileCount f <= MaxInt64 -> 0 <= suffix f <= fileCount f ->
  next_index f = Z.rem (suffix f) (fileCount f) + 1 /\
  1 <= next_index f <= fileCount f.
Proof.
  intros Hc Hs. unfold next_index.
  pose proof (Z.rem_bound_pos (suffix f) (fileCount f)) as Hr.
  unfold MaxInt64 in Hc.
  rewrite (wrap64_id (Z.rem _ _)) by (unfold in_int64, MinInt64, MaxInt64; lia).
  rewrite wrap64_id by (unfold in_int64, MinInt64, MaxInt64; lia).
  lia.
Qed.

Lemma backup_path_inj (f : FileLogger) (i j : Z) :
  backup_path f i = backup_path f j -> i = j.
Proof.
  unfold backup_path. intros H.
  apply String.app_inj in H. apply String.app_inj in H.
  now apply pretty_Z_inj in H.
Qed.

Lemma split_size_step (s : State) :
  splitType (self s) = SplitType_Size ->
  1 <= fileCount (self s) <= MaxInt64 ->
  0 <= suffix (self s) <= fileCount (self s) ->
  exists s',
    split s = Ok tt s' /\
    suffix (self s') = Z.rem (suffix (self s)) (fileCount (self s)) + 1 /\
    1 <= suffix (self s') <= fileCount (self s) /\
    splitType (self s') = SplitType_Size /\
    fileCount (self s') = fileCount (self s) /\
    logFilePath (self s') = logFilePath (self s) /\
    history (sys s') =
      history (sys s) ++ EvSplit :: closing (logFile (self s))
        ++ EvStat (backup_path (self s) (suffix (self s')))
        :: removing (sys s) (backup_path (self s) (suffix (self s')))
        ++ [EvRename (logFilePath (self s)) (backup_path (self s) (suffix (self s')));
            EvCreate (logFilePath (self s))] /\
    names (sys s') !! backup_path (self s) (suffix (self s'))
      = names (sys s) !! logFilePath (self s) /\
    dirs (sys s') = dirs (sys s) /\
    (forall p, p <> backup_path (self s) (suffix (self s')) ->
               p <> logFilePath (self s) ->
               names (sys s') !! p = names (sys s) !! p).
Proof.
  destruct s as [f w]. cbn [self sys]. intros Hs Hc Hx.
  destruct (split_size_run f w Hs ltac:(lia))
    as (h & w' & Hrun & Hhist & Hbak & Hframe & Hdirs & _ & _).
  destruct (next_index_in_range f Hc Hx) as [Hidx Hrange].
  eexists. split; [exact Hrun|]. cbn [self sys with_lg with_logFile with_suffix suffix
    splitType fileCount].
  repeat split; try assumption; try lia.
Qed.

(** C2: in size mode, with [fileCount >= 1] and the index within
    [0 .. fileCount], [split] moves the index to [suffix % fileCount + 1],
    which lies in [1 .. fileCount]; it looks for a backup at the new index,
    removes it when there is one, and only then renames the active file to
    that path, so the backup path ends up naming what the active path
    named.  From index 0 with [fileCount = 3] four rotations in a row use
    the indices 1, 2, 3 and 1 again, and the fourth finds the backup the
    first one made (when there was an active file then) and removes it
    before its own rename. *)
Theorem split_size_cycles (s : State) :
  splitType (self s) = SplitType_Size ->
  1 <= fileCount (self s) <= MaxInt64 ->
  0 <= suffix (self s) <= fileCount (self s) ->
  exists s1,
    split s = Ok tt s1 /\
    suffix (self s1) = Z.rem (suffix (self s)) (fileCount (self s)) + 1 /\
    1 <= suffix (self s1) <= fileCount (self s1) /\
    history (sys s1) =
      history (sys s) ++ EvSplit :: closing (logFile (self s))
        ++ EvStat (backup_path (self s) (suffix (self s1)))
        :: removing (sys s) (backup_path (self s) (suffix (self s1)))
        ++ [EvRename (logFilePath (self s)) (backup_path (self s) (suffix (self s1)));
            EvCreate (logFilePath (self s))] /\
    names (sys s1) !! backup_path (self s) (suffix (self s1))
      = names (sys s) !! logFilePath (self s) /\
    (fileCount (self s) = 3 -> suffix (self s) = 0 ->
     exists s2 s3 s4,
       split s1 = Ok tt s2 /\ split s2 = Ok tt s3 /\ split s3 = Ok tt s4 /\
       suffix (self s1) = 1 /\ suffix (self s2) = 2 /\
       suffix (self s3) = 3 /\ suffix (self s4) = 1 /\
       history (sys s4) =
         history (sys s3) ++ EvSplit :: closing (logFile (self s3))
           ++ EvStat (backup_path (self s) 1)
           :: removing (sys s3) (backup_path (self s) 1)
           ++ [EvRename (logFilePath (self s)) (backup_path (self s) 1);
               EvCreate (logFilePath (self s))] /\
       (is_file (sys s) (logFilePath (self s)) = true ->
        removing (sys s3) (backup_path (self s) 1)
          = [EvRemove (backup_path (self s) 1)])).
Proof.
  intros Hs Hc Hx.
  destruct (split_size_step s Hs Hc Hx)
    as (s1 & Hrun1 & Hi1 & Hr1 & Hs1 & Hc1 & Hp1 & Hh1 & Hn1 & Hd1 & Hf1).
  exists s1. split; [exact Hrun1|]. split; [exact Hi1|].
  split; [rewrite Hc1; exact Hr1|]. split; [exact Hh1|]. split; [exact Hn1|].
  intros H3 H0. rewrite H3, H0 in *.
  assert (E1 : suffix (self s1) = 1) by (rewrite Hi1; reflexivity).
  destruct (split_size_step s1 Hs1 ltac:(lia) ltac:(lia))
    as (s2 & Hrun2 & Hi2 & Hr2 & Hs2 & Hc2 & Hp2 & Hh2 & Hn2 & Hd2 & Hf2).
  assert (E2 : suffix (self s2) = 2) by (rewrite Hi2, E1, Hc1; reflexivity).
  destruct (split_size_step s2 Hs2 ltac:(lia) ltac:(lia))
    as (s3 & Hrun3 & Hi3 & Hr3 & Hs3 & Hc3 & Hp3 & Hh3 & Hn3 & Hd3 & Hf3).
  assert (E3 : suffix (self s3) = 3) by (rewrite Hi3, E2, Hc2, Hc1; reflexivity).
  destruct (split_size_step s3 Hs3 ltac:(lia) ltac:(lia))
    as (s4 & Hrun4 & Hi4 & Hr4 & Hs4 & Hc4 & Hp4 & Hh4 & Hn4 & Hd4 & Hf4).
  assert (E4 : suffix (self s4) = 1) by (rewrite Hi4, E3, Hc3, Hc2, Hc1; reflexivity).
  assert (P2 : logFilePath (self s2) = logFilePath (self s)) by congruence.
  assert (P3 : logFilePath (self s3) = logFilePath (self s)) by congruence.
  assert (B : forall s' i, logFilePath (self s') = logFilePath (self s) ->
                           backup_path (self s') i = backup_path (self s) i).
  { intros s' i H. unfold backup_path. now rewrite H. }
  rewrite E1 in *. rewrite E2 in *. rewrite E3 in *. rewrite E4 in *.
  rewrite (B s1), ?(B s2), ?(B s3) in * by assumption.
  rewrite Hp1, ?P2, ?P3 in *.
  exists s2, s3, s4. repeat split; try assumption.
  intros Hfile. unfold removing, stat_ok, is_file in *.
  assert (N1 : backup_path (self s) 1 <> logFilePath (self s))
    by apply backup_path_differs.
  rewrite Hf3, Hf2, Hn1.
  - now rewrite Hfile.
  - intros H. apply backup_path_inj in H. discriminate.
  - exact N1.
  - intros H. apply backup_path_inj in H. discriminate.
  - exact N1.
Qed.

Lemma split_size_cycles_witness :
  splitType (size_logger 0 3 1024) = SplitType_Size /\
  1 <= fileCount (size_logger 0 3 1024) <= MaxInt64 /\
  0 <= suffix (size_logger 0 3 1024) <= fileCount (size_logger 0 3 1024) /\
  exists s1, split {| self := size_logger 0 3 1024; sys := sample_world |} = Ok tt s1 /\
             suffix (self s1) = 1.
Proof.
  assert (Hc : 1 <= 3 <= MaxInt64) by (unfold MaxInt64; lia).
  assert (Hx : 0 <= 0 <= 3) by lia.
  split; [reflexivity|]. split; [exact Hc|]. split; [exact Hx|].
  destruct (split_size_cycles {| self := size_logger 0 3 1024; sys := sample_world |}
              eq_refl Hc Hx) as (s1 & Hrun & Hi & _).
  exists s1. split; [exact Hrun|]. rewrite Hi. reflexivity.
Defined.

(** *** Construction *)

(** The scan stops after its first round: it looks at the backup with
    index 1 and at no other. *)
Lemma scan_backups_run (p : string) (f : FileLogger) (w : World) :
  scan_backups p {| self := f; sys := w |} =
  if 1 <=? fileCount f
  then Ok tt {| self := if stat_ok w (p +:+ "." +:+ Itoa 1)
                        then with_suffix 1 f else f;
                sys := record (EvStat (p +:+ "." +:+ Itoa 1)) w |}
  else Ok tt {| self := f; sys := w |}.
Proof.
  unfold scan_backups. unfold_calls. cbn.
  destruct (1 <=? fileCount f) eqn:Hc.
  - apply Z.leb_le in Hc.
    destruct (Z.to_nat (fileCount f)) as [|k] eqn:Hk; [lia|].
    cbn. apply Z.leb_le in Hc. rewrite Hc. unfold bind, ret. cbn.
    destruct (stat_ok w (p +:+ "." +:+ Itoa 1)); reflexivity.
  - apply Z.leb_gt in Hc.
    destruct (Z.to_nat (fileCount f)) as [|k] eqn:Hk; [reflexivity|lia].
Qed.

(** C3: with [fileCount = 3] and the backups [app.log.1], [app.log.2] and
    [app.log.3] all on disk (and an active file below the threshold, so
    that construction does not rotate), [NewSizeLogger] leaves the backup
    index at 1, not at 3: the scan leaves its loop after the first round. *)
Theorem NewSizeLogger_resumes_at_first_backup :
  stat_ok sample_world "logs/app.log.1" = true /\
  stat_ok sample_world "logs/app.log.2" = true /\
  stat_ok sample_world "logs/app.log.3" = true /\
  exists s,
    NewSizeLogger "logs" "app.log" "" 3 10 KB sample_world = Ok tt s /\
    suffix (self s) = 1 /\ suffix (self s) <> 3.
Proof.
  repeat split; try (vm_compute; reflexivity).
  eexists. split; [vm_compute; reflexivity|]. split; [reflexivity|discriminate].
Qed.

(** *** The daily policy *)

(** C4: in daily mode [isMustSplit] returns true exactly when midnight of
    today is strictly after the stored date.  The stored date being
    midnight of the day the active file was opened for, that is: exactly
    when today's calendar day is later than that day; two readings of the
    clock on one calendar day give the same answer. *)
Theorem isMustSplit_daily_policy (s : State) (d : Time) :
  splitType (self s) = SplitType_Daily -> date (self s) = Some d ->
  exists b s',
    isMustSplit s = Ok b s' /\ self s' = self s /\
    (b = true <-> d < truncateToDay (now_of (sys s))) /\
    (forall opened_on : Time, d = truncateToDay opened_on ->
       (b = true <-> dayOf opened_on < dayOf (now_of (sys s)))) /\
    (forall s2 : State, self s2 = self s ->
       dayOf (now_of (sys s2)) = dayOf (now_of (sys s)) ->
       exists s2', isMustSplit s2 = Ok b s2').
Proof.
  destruct s as [f w]. cbn [self sys]. intros Hs Hd.
  eexists _, _. split; [exact (isMustSplit_daily_run f w d Hs Hd)|].
  split; [reflexivity|]. unfold After. rewrite Z.ltb_lt.
  split; [reflexivity|]. split.
  - intros o ->. unfold truncateToDay. lia.
  - intros [f2 w2] Hf Hday. cbn [self sys] in *. subst f2.
    eexists. rewrite (isMustSplit_daily_run f w2 d Hs Hd).
    unfold truncateToDay. rewrite Hday. reflexivity.
Qed.

Lemma isMustSplit_daily_policy_witness :
  splitType (daily_logger 1700000000 None None) = SplitType_Daily /\
  date (daily_logger 1700000000 None None) = Some (truncateToDay 1700000000) /\
  exists s',
    isMustSplit {| self := daily_logger 1700000000 None None; sys := later_world |}
    = Ok true s'.
Proof.
  split; [reflexivity|]. split; [reflexivity|].
  destruct (isMustSplit_daily_policy
              {| self := daily_logger 1700000000 None None; sys := later_world |}
              (truncateToDay 1700000000) eq_refl eq_refl)
    as (b & s' & Hrun & _ & Hiff & _).
  exists s'. rewrite Hrun. f_equal. apply Hiff. vm_compute. reflexivity.
Defined.

(** *** Rotation by day *)

Lemma split_daily_idle (f : FileLogger) (w : World) (d : Time) :
  splitType f = SplitType_Daily -> date f = Some d ->
  stat_ok w (daily_backup f d) = true \/
  After (truncateToDay (now_of w)) d = false ->
  exists w' evs,
    split {| self := f; sys := w |} = Ok tt {| self := f; sys := w' |} /\
    same_files w w' /\ clock w' = clock w /\
    (reads w <= reads w' <= S (reads w))%nat /\
    history w' = history w ++ EvSplit :: evs /\ forallb observes evs = true.
Proof.
  intros Hs Hd Hidle. destruct w as [dd n i o ni nf c r t].
  unfold split, daily_backup in *. unfold_calls. cbn. rewrite Hs, Hd. cbn.
  destruct (stat_ok _ _) eqn:Hstat; cbn.
  - exists (record (EvStat (logFilePath f +:+ "." +:+ Format d))
              (record EvSplit (mkWorld dd n i o ni nf c r t))),
           [EvStat (logFilePath f +:+ "." +:+ Format d)].
    split; [reflexivity|]. observers. cbn. rewrite <- app_assoc.
    repeat split; lia.
  - rewrite (isMustSplit_daily_run f _ d Hs Hd).
    destruct Hidle as [Hidle|Hidle].
    { observers. cbn in *. congruence. }
    observers. cbn in *. rewrite Hidle. cbn.
    eexists _, [EvStat (logFilePath f +:+ "." +:+ Format d); EvNow (c r)].
    split; [reflexivity|]. cbn. rewrite <- !app_assoc.
    repeat split; lia.
Qed.

(** Case analysis on the innermost scrutinee the goal is stuck on. *)
Ltac innermost x :=
  lazymatch x with
  | context [match ?y with _ => _ end] => innermost y
  | _ => destruct x eqn:?
  end.

Ltac case_step :=
  match goal with
  | |- context [match ?x with _ => _ end] => innermost x
  end.

Lemma split_daily_acts (f : FileLogger) (w : World) (d : Time) :
  splitType f = SplitType_Daily -> date f = Some d ->
  stat_ok w (daily_backup f d) = false ->
  After (truncateToDay (now_of w)) d = true ->
  (exists W,
     split {| self := f; sys := w |} =
     Ok tt {| self := with_lg
                        (Some (log_New (handle_for W (logFilePath f))
                                 (prefix f) logger_flags))
                        (with_logFile (handle_for W (logFilePath f))
                           (with_date
                              (Some (truncateToDay (clock w (S (reads w))))) f));
              sys := record (EvCreate (logFilePath f))
                       (opening true (logFilePath f) W) |} /\
     dirs W = dirs w /\
     names W = renamed w (logFilePath f) (daily_backup f d) /\
     next_ino W = next_ino w /\ next_fd W = next_fd w /\
     clock W = clock w /\ reads W = S (S (reads w)) /\
     history W =
       history w
         ++ [EvSplit; EvStat (daily_backup f d); EvNow (now_of w)]
         ++ closing (logFile f)
         ++ EvRename (logFilePath f) (daily_backup f d)
         :: reporting f (rename_error w (logFilePath f) (daily_backup f d))
         ++ [EvNow (clock w (S (reads w)))]) \/
  (lg f = None /\ is_file w (logFilePath f) = false /\
   exists W,
     split {| self := f; sys := w |}
       = Panic nil_dereference {| self := f; sys := W |} /\
     history W =
       history w
         ++ [EvSplit; EvStat (daily_backup f d); EvNow (now_of w)]
         ++ closing (logFile f)
         ++ [EvRename (logFilePath f) (daily_backup f d)]).
Proof.
  intros Hs Hd Hstat Hdue. destruct w as [dd n i o ni nf c r t].
  unfold split, daily_backup, reporting, rename_report, renamed in *.
  unfold_calls. cbn. rewrite Hs, Hd. cbn.
  change (stat_ok (record EvSplit ?w) ?p) with (stat_ok w p). rewrite Hstat. cbn.
  rewrite (isMustSplit_daily_run f _ d Hs Hd).
  change (now_of (record ?e (record ?e' ?w))) with (now_of w). rewrite Hdue. cbn.
  unfold rename_error, renamed, is_file, now_of, history. cbn.
  destruct (logFile f) as [file|]; cbn;
    destruct (n !! logFilePath f) as [ino|] eqn:Hact; cbn;
    try (destruct (lg f) as [l|] eqn:Hlg; cbn).
  all: try (right; split; [reflexivity|]; split;
            [apply bool_decide_eq_false, is_Some_None|];
            eexists; split; [reflexivity|]; chain; reflexivity).
  all: left; eexists; split; [reflexivity|]; cbn; rewrite ?Hact.
  all: repeat split; chain; reflexivity.
Qed.

Lemma same_day_truncate (t u : Time) : dayOf t = dayOf u -> truncateToDay t = truncateToDay u.
Proof. unfold truncateToDay. now intros ->. Qed.

Lemma not_after_itself (t : Time) : After t t = false.
Proof. unfold After. apply Z.ltb_irrefl. Qed.

(** C5: in daily mode [split] does nothing but look when the backup for
    the stored date is already there or the policy no longer asks for a
    rotation: the logger (stored date, file handle, line-writer) and every
    file stay as they were, and nothing is closed, renamed or created.
    Hence, as long as the clock stays on one calendar day, a [split] that
    follows a [split] is such a no-op. *)
Theorem split_daily_idempotent (s : State) (d : Time) :
  splitType (self s) = SplitType_Daily -> date (self s) = Some d ->
  (stat_ok (sys s) (daily_backup (self s) d) = true \/
   After (truncateToDay (now_of (sys s))) d = false ->
   exists s' evs,
     split s = Ok tt s' /\ self s' = self s /\ same_files (sys s) (sys s') /\
     history (sys s') = history (sys s) ++ evs /\ forallb observes evs = true) /\
  ((forall k, (reads (sys s) <= k)%nat ->
              dayOf (clock (sys s) k) = dayOf (now_of (sys s))) ->
   forall s1, split s = Ok tt s1 ->
   exists s2 evs,
     split s1 = Ok tt s2 /\ self s2 = self s1 /\ same_files (sys s1) (sys s2) /\
     history (sys s2) = history (sys s1) ++ evs /\ forallb observes evs = true).
Proof.
  destruct s as [f w]. cbn [self sys]. intros Hs Hd. split.
  - intros Hidle.
    destruct (split_daily_idle f w d Hs Hd Hidle)
      as (w' & evs & Hrun & Hfiles & _ & _ & Hh & Hobs).
    exists {| self := f; sys := w' |}, (EvSplit :: evs). cbn [self sys]. auto.
  - intros Hday s1 Hrun1.
    assert (Hidle : forall f1 w1 d1,
               splitType f1 = SplitType_Daily -> date f1 = Some d1 ->
               stat_ok w1 (daily_backup f1 d1) = true \/
               After (truncateToDay (now_of w1)) d1 = false ->
               exists s2 evs,
                 split {| self := f1; sys := w1 |} = Ok tt s2 /\
                 self s2 = f1 /\ same_files w1 (sys s2) /\
                 history (sys s2) = history w1 ++ evs /\
                 forallb observes evs = true).
    { intros f1 w1 d1 H1 H2 H3.
      destruct (split_daily_idle f1 w1 d1 H1 H2 H3)
        as (w' & evs & Hrun & Hfiles & _ & _ & Hh & Hobs).
      exists {| self := f1; sys := w' |}, (EvSplit :: evs). cbn [self sys]. auto. }
    destruct (stat_ok w (daily_backup f d)) eqn:Hstat.
    + (* the backup was there: the first call changed nothing *)
      destruct (split_daily_idle f w d Hs Hd (or_introl Hstat))
        as (w' & evs & Hrun & (Hdirs & Hnames & _) & _ & _ & _ & _).
      rewrite Hrun in Hrun1. injection Hrun1 as <-.
      apply (Hidle f w' d Hs Hd). left.
      unfold stat_ok, is_file, is_dir in *. now rewrite Hdirs, Hnames.
    + destruct (After (truncateToDay (now_of w)) d) eqn:Hdue.
      * (* the first call rotated: the stored date is today *)
        destruct (split_daily_acts f w d Hs Hd Hstat Hdue)
          as [(W & Hrun & _ & _ & _ & _ & Hclock & Hreads & _)
             | (_ & _ & W & Hrun & _)];
          rewrite Hrun in Hrun1; [|discriminate].
        injection Hrun1 as <-.
        apply (Hidle _ _ (truncateToDay (clock w (S (reads w)))));
          [exact Hs | reflexivity |]. right.
        change (now_of (record ?e (opening ?b ?p ?w0))) with (now_of w0).
        unfold now_of at 1. rewrite Hclock, Hreads.
        rewrite (same_day_truncate (clock w (S (S (reads w))))
                                   (clock w (S (reads w)))).
        { apply not_after_itself. }
        rewrite !Hday by lia. reflexivity.
      * (* no rotation was due, and none is due later that day *)
        destruct (split_daily_idle f w d Hs Hd (or_intror Hdue))
          as (w' & evs & Hrun & _ & Hclock & Hreads & _ & _).
        rewrite Hrun in Hrun1. injection Hrun1 as <-.
        apply (Hidle f w' d Hs Hd). right.
        unfold now_of at 1. rewrite Hclock.
        rewrite (same_day_truncate (clock w (reads w')) (now_of w)); [exact Hdue|].
        apply Hday. lia.
Qed.

Lemma later_world_one_day (k : nat) :
  dayOf (clock later_world k) = dayOf (now_of later_world).
Proof. do 5 (destruct k as [|k]; [reflexivity|]). reflexivity. Defined.

Lemma split_daily_idempotent_witness :
  splitType (self stale_daily) = SplitType_Daily /\
  date (self stale_daily) = Some (truncateToDay 1700000000) /\
  (forall k, (reads (sys stale_daily) <= k)%nat ->
             dayOf (clock (sys stale_daily) k) = dayOf (now_of (sys stale_daily))) /\
  exists s1 s2,
    split stale_daily = Ok tt s1 /\ split s1 = Ok tt s2 /\ self s2 = self s1.
Proof.
  split; [reflexivity|]. split; [reflexivity|].
  split; [intros k _; apply later_world_one_day|].
  assert (Hrun : exists s1, split stale_daily = Ok tt s1)
    by (eexists; vm_compute; reflexivity).
  destruct Hrun as [s1 Hrun]. exists s1.
  destruct (proj2 (split_daily_idempotent stale_daily (truncateToDay 1700000000)
                     eq_refl eq_refl)
              (fun k _ => later_world_one_day k) s1 Hrun)
    as (s2 & evs & Hrun2 & Hself & _).
  exists s2. auto.
Defined.


(** Creating a file that is not there, in a directory that is. *)
Lemma opening_new (cut : bool) (p : string) (w : World) :
  names w !! p = None -> open_ok w p = true ->
  handle_for w p = Some (mkFile (next_fd w)) /\
  names (opening cut p w) !! p = Some (next_ino w) /\
  opened (opening cut p w) !! next_fd w = Some (next_ino w) /\
  inodes (opening cut p w) !! next_ino w = Some 0.
Proof.
  intros Hfree Hok. unfold handle_for, opening, inode_for, is_file. cbn.
  rewrite Hfree, Hok. cbn.
  replace (bool_decide (is_Some (@None nat))) with false by reflexivity.
  rewrite orb_true_r. lookups. auto.
Qed.

(** A record written through an open handle lengthens the file behind it. *)
Lemma written_grows (l : Logger) (msg : string) (w : World) (h : File) (i : nat) :
  out l = Some h -> opened w !! fd h = Some i ->
  inodes (written l msg w) !! i
    = Some (default 0 (inodes w !! i) + record_size l msg) /\
  names (written l msg w) = names w.
Proof.
  intros Hout Hopen. unfold written. cbn. rewrite Hout, Hopen. lookups. auto.
Qed.



(** *** What every call preserves *)

Lemma same_config_refl (f : FileLogger) : same_config f f.
Proof. unfold same_config. auto. Qed.

Lemma same_config_trans (f g h : FileLogger) :
  same_config f g -> same_config g h -> same_config f h.
Proof. unfold same_config. intuition congruence. Qed.

(** [split] never waits on the mutex, leaves it as it is, keeps the
    configuration, and starts by marking its entry. *)
Lemma split_frame (s : State) :
  (forall s', split s <> Block s') /\
  mu (self (final (split s))) = mu (self s) /\
  same_config (self s) (self (final (split s))) /\
  exists evs, history (sys (final (split s))) = history (sys s) ++ EvSplit :: evs.
Proof.
  destruct s as [f w]. cbn [self sys].
  destruct (splitType f) eqn:Hs.
  - destruct (fileCount f =? 0) eqn:Hc.
    + assert (Hrun : split {| self := f; sys := w |}
                     = Panic divide_by_zero {| self := f; sys := record EvSplit w |}).
      { unfold split. unfold_calls. cbn. rewrite Hs, Hc. reflexivity. }
      rewrite Hrun. cbn. split; [discriminate|]. split; [reflexivity|].
      split; [apply same_config_refl|]. exists []. reflexivity.
    + apply Z.eqb_neq in Hc.
      destruct (split_size_run f w Hs Hc) as (h & w' & Hrun & Hh & _).
      rewrite Hrun. cbn [final self sys]. split; [discriminate|].
      split; [reflexivity|]. split.
      * unfold same_config, logFilePath. cbn. intuition eauto.
      * eexists. exact Hh.
  - destruct (date f) as [d|] eqn:Hd.
    + destruct (stat_ok w (daily_backup f d)) eqn:Hstat;
        [|destruct (After (truncateToDay (now_of w)) d) eqn:Hdue].
      * destruct (split_daily_idle f w d Hs Hd (or_introl Hstat))
          as (w' & evs & Hrun & _ & _ & _ & Hh & _).
        rewrite Hrun. cbn [final self sys]. split; [discriminate|].
        split; [reflexivity|]. split; [apply same_config_refl|]. eauto.
      * destruct (split_daily_acts f w d Hs Hd Hstat Hdue)
          as [(W & Hrun & _ & _ & _ & _ & _ & _ & Hh)
             | (_ & _ & W & Hrun & Hh)];
          rewrite Hrun; cbn [final self sys]; (split; [discriminate|]);
          (split; [reflexivity|]).
        -- split; [unfold same_config, logFilePath; cbn; intuition eauto|].
           change (history (record ?e ?w0)) with (history w0 ++ [e]).
           change (history (opening ?b ?p ?w0)) with (history w0).
           rewrite Hh. cbn. rewrite <- !app_assoc. cbn. eauto.
        -- split; [apply same_config_refl|]. rewrite Hh. cbn. eauto.
      * destruct (split_daily_idle f w d Hs Hd (or_intror Hdue))
          as (w' & evs & Hrun & _ & _ & _ & Hh & _).
        rewrite Hrun. cbn [final self sys]. split; [discriminate|].
        split; [reflexivity|]. split; [apply same_config_refl|]. eauto.
    + assert (Hrun : split {| self := f; sys := w |}
                     = Panic nil_dereference {| self := f; sys := record EvSplit w |}).
      { unfold split. unfold_calls. cbn. rewrite Hs, Hd. reflexivity. }
      rewrite Hrun. cbn. split; [discriminate|]. split; [reflexivity|].
      split; [apply same_config_refl|]. exists []. reflexivity.
Qed.

(** [isMustSplit] only reads: it returns its verdict, or panics on a nil
    date, with the logger as it was. *)
Lemma isMustSplit_frame (s : State) :
  exists w' evs,
    ((exists b, isMustSplit s = Ok b {| self := self s; sys := w' |}) \/
     isMustSplit s = Panic nil_dereference {| self := self s; sys := w' |}) /\
    history w' = history (sys s) ++ evs /\ forallb is_read evs = true.
Proof.
  destruct s as [f w]. cbn [self sys].
  destruct (splitType f) eqn:Hs.
  - rewrite (isMustSplit_size_run f w Hs).
    destruct (1 <? fileCount f).
    + eexists _, [_]. split; [left; eexists; reflexivity|]. split; reflexivity.
    + eexists _, []. split; [left; eexists; reflexivity|].
      split; [symmetry; apply app_nil_r|reflexivity].
  - destruct (date f) as [d|] eqn:Hd.
    + rewrite (isMustSplit_daily_run f w d Hs Hd).
      eexists _, [_]. split; [left; eexists; reflexivity|]. split; reflexivity.
    + eexists _, [_]. split.
      * right. unfold isMustSplit. unfold_calls. cbn. rewrite Hs, Hd. reflexivity.
      * split; reflexivity.
Qed.

(** *** The periodic check *)

Lemma fileCheck_recover_run (v : string) (s : State) (l : Logger) :
  lg (self s) = Some l ->
  fileCheck_recover v s = Ok tt (printed l (catch_report v) s).
Proof.
  intros Hl. unfold fileCheck_recover. unfold_calls. cbn. rewrite Hl. reflexivity.
Qed.

Lemma fileCheck_idle (s s1 : State) :
  isMustSplit s = Ok false s1 -> fileCheck s = Ok tt s1.
Proof.
  intros H. unfold fileCheck, fileCheck_body, recovering, bind. now rewrite H.
Qed.

Lemma fileCheck_caught (s s1 : State) (v : string) :
  fileCheck_body s = Panic v s1 -> fileCheck s = fileCheck_recover v s1.
Proof. intros H. unfold fileCheck, recovering. now rewrite H. Qed.

Lemma fileCheck_body_rotates (s s1 : State) :
  isMustSplit s = Ok true s1 -> mu (self s1) = false ->
  fileCheck_body s =
  match split (locked s1) with
  | Ok _ s2 => Ok tt (unlocked s2)
  | Panic v s2 => Panic v (unlocked s2)
  | Block s2 => Block s2
  end.
Proof.
  intros H Hmu. unfold fileCheck_body, bind at 1. rewrite H.
  unfold_calls. cbn. rewrite Hmu. fold (locked s1).
  destruct (split (locked s1)) as [[] s2|v s2|s2]; reflexivity.
Qed.


Lemma fileCheck_recover_final (v : string) (s : State) :
  (forall s', fileCheck_recover v s <> Block s') /\
  self (final (fileCheck_recover v s)) = self s /\
  exists evs, history (sys (final (fileCheck_recover v s))) = history (sys s) ++ evs.
Proof.
  destruct (lg (self s)) as [l|] eqn:Hl.
  - rewrite (fileCheck_recover_run v s l Hl). cbn. split; [discriminate|].
    split; [reflexivity|]. exists [EvPrintf l (catch_report v)]. reflexivity.
  - assert (Hrun : fileCheck_recover v s = Panic nil_dereference s).
    { unfold fileCheck_recover. unfold_calls. cbn. rewrite Hl. now destruct s. }
    rewrite Hrun. cbn. split; [discriminate|]. split; [reflexivity|].
    exists []. symmetry. apply app_nil_r.
Qed.

(** On [oversized] the first call of [fileCheck] is the [os.Stat] of the
    policy; the lock comes second. *)
Lemma fileCheck_oversized :
  exists s',
    fileCheck oversized = Ok tt s' /\
    history (sys s') =
      [EvStat "logs/app.log"; EvLock; EvSplit; EvStat "logs/app.log.1";
       EvRemove "logs/app.log.1"; EvRename "logs/app.log" "logs/app.log.1";
       EvCreate "logs/app.log"; EvUnlock].
Proof. eexists. split; vm_compute; reflexivity. Qed.

(** C7, as worded: [fileCheck] does not take the lock first.  On a
    size-mode logger whose active file has passed the threshold, its first
    call is the policy's look at the file, and [f.mu.Lock()] comes after. *)
Lemma fileCheck_does_not_lock_first : ~ locks_first oversized.
Proof.
  intros (s' & rest & Hrun & Hh).
  destruct fileCheck_oversized as (s0 & Hrun0 & Hh0).
  rewrite Hrun0 in Hrun. injection Hrun as <-.
  rewrite Hh0 in Hh. discriminate Hh.
Qed.

(** *** Construction, in full *)

Lemma open_active_run (f0 : FileLogger) (p : string) (f : FileLogger) (w : World) :
  exists W,
    open_active f0 p {| self := f; sys := w |} =
    Ok tt {| self := with_lg (Some (log_New (handle_for W p) (prefix f0) logger_flags))
                       (with_logFile (handle_for W p) f);
             sys := record (EvOpenFile p) (opening false p W) |} /\
    history W = history w ++ preparing w (fileDir f0).
Proof.
  unfold open_active, preparing. unfold_calls. cbn.
  destruct (stat_ok w (fileDir f0)); cbn; eexists; (split; [reflexivity|]).
  - reflexivity.
  - unfold history. cbn. now rewrite <- app_assoc.
Qed.

Lemma not_in_preparing (w : World) (dir : string) : ~ In EvSplit (preparing w dir).
Proof. unfold preparing. destruct (stat_ok w dir); cbn; intuition discriminate. Qed.

Lemma not_in_scanning (f : FileLogger) : ~ In EvSplit (scanning f).
Proof. unfold scanning. destruct (1 <=? fileCount f); cbn; intuition discriminate. Qed.

(** Sequencing, when the first part returns. *)
Lemma bind_Ok {A B} (m : M A) (k : A -> M B) (s s1 : State) (a : A) :
  m s = Ok a s1 -> bind m k s = k a s1.
Proof. intros H. unfold bind. now rewrite H. Qed.

Lemma defer_unlock_Ok {A} (m : M A) (s s1 : State) (a : A) :
  m s = Ok a s1 -> defer mu_Unlock m s = Ok a (unlocked s1).
Proof. intros H. unfold defer. now rewrite H. Qed.

Lemma defer_unlock_Panic {A} (m : M A) (s s1 : State) (v : string) :
  m s = Panic v s1 -> defer mu_Unlock m s = Panic v (unlocked s1).
Proof. intros H. unfold defer. now rewrite H. Qed.

Lemma get_self_run (s : State) : get_self s = Ok (self s) s.
Proof. reflexivity. Qed.

Lemma mu_Lock_run (s : State) : mu (self s) = false -> mu_Lock s = Ok tt (locked s).
Proof. intros H. unfold mu_Lock. now rewrite H. Qed.

(** The scan changes nothing but, at most, the index, and only looks. *)
Lemma scan_backups_frame (p : string) (f : FileLogger) (w : World) :
  exists f1 w1 evs,
    scan_backups p {| self := f; sys := w |} = Ok tt {| self := f1; sys := w1 |} /\
    (f1 = f \/ f1 = with_suffix 1 f) /\
    history w1 = history w ++ evs /\ ~ In EvSplit evs /\
    names w1 = names w /\ inodes w1 = inodes w.
Proof.
  rewrite scan_backups_run. destruct (1 <=? fileCount f).
  - eexists _, _, [_]. split; [reflexivity|].
    split; [destruct (stat_ok _ _); auto|].
    split; [reflexivity|]. split; [cbn; intuition discriminate|]. auto.
  - eexists _, _, []. split; [reflexivity|]. split; [auto|].
    split; [symmetry; apply app_nil_r|]. cbn. auto.
Qed.

(** Reading the history off a state built by the environment's calls. *)
Ltac hist :=
  repeat first
    [ progress cbn [sys self unlocked locked printed]
    | progress change (history (record ?e ?w0)) with (history w0 ++ [e])
    | progress change (history (opening ?b ?p ?w0)) with (history w0)
    | progress change (history (written ?a ?b ?w0)) with (history w0)
    | progress change (history (advance ?w0)) with (history w0) ].

Ltac hist_in H :=
  repeat first
    [ progress cbn [sys self unlocked locked printed] in H
    | progress change (history (record ?e ?w0)) with (history w0 ++ [e]) in H
    | progress change (history (opening ?b ?p ?w0)) with (history w0) in H
    | progress change (history (written ?a ?b ?w0)) with (history w0) in H
    | progress change (history (advance ?w0)) with (history w0) in H ].

Ltac lists := repeat (progress (rewrite <- ?app_assoc; cbn [app])).

(** The rest of [initLoggerBySize] after the scan. *)
Lemma size_tail_run (f0 f1 : FileLogger) (w1 : World) :
  splitType f1 = SplitType_Size ->
  exists s2 evs,
    (must <- isMustSplit ;;
     (if negb must then open_active f0 (logFilePath f0) else split) ;;
     go_fileMonitor) {| self := f1; sys := w1 |} = Ok tt s2 /\
    mu (self s2) = mu f1 /\ is_Some (lg (self s2)) /\
    splitType (self s2) = SplitType_Size /\
    fileCount (self s2) = fileCount f1 /\ fileSize (self s2) = fileSize f1 /\
    history (sys s2) = history w1 ++ evs ++ [EvGo] /\
    (In EvSplit evs <-> size_due f1 w1 = true).
Proof.
  intros Hs. unfold size_due.
  pose proof (isMustSplit_size_run f1 w1 Hs) as Hpol.
  destruct (1 <? fileCount f1) eqn:Hgt; cbn [andb];
    [destruct (fileSize f1 <=? on_disk_size w1 (logFilePath f1)) eqn:Hle|].
  - (* rotate *)
    rewrite (bind_Ok _ _ _ _ _ Hpol). cbn [negb].
    destruct (split_size_run f1 (record (EvStat (logFilePath f1)) w1) Hs)
      as (h & w' & Hrun & Hh & _).
    { apply Z.ltb_lt in Hgt. lia. }
    rewrite (bind_Ok _ _ _ _ _ Hrun).
    match type of Hh with _ = _ ++ EvSplit :: ?r => set (rest := r) in Hh end.
    eexists _, (EvStat (logFilePath f1) :: EvSplit :: rest).
    split; [reflexivity|]. cbn [self sys].
    split; [reflexivity|]. split; [cbn; eauto|]. split; [exact Hs|].
    split; [reflexivity|]. split; [reflexivity|]. split.
    + hist. hist_in Hh. rewrite Hh. lists. reflexivity.
    + split; [reflexivity|]. intros _. right. left. reflexivity.
  - (* open, after a look at the size *)
    rewrite (bind_Ok _ _ _ _ _ Hpol). cbn [negb].
    destruct (open_active_run f0 (logFilePath f0) f1
                (record (EvStat (logFilePath f1)) w1)) as (W & Hrun & Hh).
    rewrite (bind_Ok _ _ _ _ _ Hrun).
    eexists _, (EvStat (logFilePath f1)
                  :: preparing (record (EvStat (logFilePath f1)) w1) (fileDir f0)
                  ++ [EvOpenFile (logFilePath f0)]).
    split; [reflexivity|]. cbn [self sys].
    split; [reflexivity|]. split; [cbn; eauto|]. split; [exact Hs|].
    split; [reflexivity|]. split; [reflexivity|]. split.
    + hist. hist_in Hh. rewrite Hh. lists. reflexivity.
    + split; [|discriminate]. intros [H|H]; [discriminate|].
      apply in_app_or in H as [H|[H|[]]]; [|discriminate].
      now apply not_in_preparing in H.
  - (* fileCount <= 1: open, without a look at the size *)
    rewrite (bind_Ok _ _ _ _ _ Hpol). cbn [negb].
    destruct (open_active_run f0 (logFilePath f0) f1 w1) as (W & Hrun & Hh).
    rewrite (bind_Ok _ _ _ _ _ Hrun).
    eexists _, (preparing w1 (fileDir f0) ++ [EvOpenFile (logFilePath f0)]).
    split; [reflexivity|]. cbn [self sys].
    split; [reflexivity|]. split; [cbn; eauto|]. split; [exact Hs|].
    split; [reflexivity|]. split; [reflexivity|]. split.
    + hist. rewrite Hh. lists. reflexivity.
    + split; [|discriminate]. intros H.
      apply in_app_or in H as [H|[H|[]]]; [|discriminate].
      now apply not_in_preparing in H.
Qed.

Lemma size_due_same (f f1 : FileLogger) (w w1 : World) :
  fileCount f1 = fileCount f -> fileSize f1 = fileSize f ->
  logFilePath f1 = logFilePath f ->
  names w1 = names w -> inodes w1 = inodes w ->
  size_due f1 w1 = size_due f w.
Proof.
  intros Hc Hz Hp Hn Hi. unfold size_due, on_disk_size, stat_size.
  now rewrite Hc, Hz, Hp, Hn, Hi.
Qed.

(** [initLoggerBySize] on a logger whose mutex is free: it returns, with
    the mutex free again and a line-writer set; it rotates exactly when the
    policy says so, and does so under the lock. *)
Lemma initLoggerBySize_run (f : FileLogger) (w : World) :
  splitType f = SplitType_Size -> mu f = false ->
  exists s' evs,
    initLoggerBySize {| self := f; sys := w |} = Ok tt s' /\
    mu (self s') = false /\ is_Some (lg (self s')) /\
    splitType (self s') = SplitType_Size /\
    fileCount (self s') = fileCount f /\ fileSize (self s') = fileSize f /\
    history (sys s') = history w ++ EvLock :: evs ++ [EvGo; EvUnlock] /\
    (In EvSplit evs <-> size_due f w = true).
Proof.
  intros Hs Hmu.
  destruct (scan_backups_frame (logFilePath (with_mu true f)) (with_mu true f)
              (record EvLock w))
    as (f1 & w1 & pre & Hscan & Hf1 & Hh1 & Hpre & Hn1 & Hi1).
  assert (Hcfg : splitType f1 = SplitType_Size /\ fileCount f1 = fileCount f /\
                 fileSize f1 = fileSize f /\ logFilePath f1 = logFilePath f /\
                 mu f1 = true).
  { destruct Hf1 as [-> | ->]; cbn; auto. }
  destruct Hcfg as (Hs1 & Hc1 & Hz1 & Hp1 & Hm1).
  destruct (size_tail_run (with_mu true f) f1 w1 Hs1)
    as (s2 & evs & Htail & Hmu2 & Hlg2 & Hs2 & Hc2 & Hz2 & Hh2 & Hin).
  assert (Hbody :
    (f0 <- get_self ;;
     let logPath := logFilePath f0 in
     scan_backups logPath ;;
     must <- isMustSplit ;;
     (if negb must then open_active f0 logPath else split) ;;
     go_fileMonitor) {| self := with_mu true f; sys := record EvLock w |}
    = Ok tt s2).
  { rewrite (bind_Ok get_self _ _ _ _ (get_self_run _)). cbn [self].
    cbn zeta. rewrite (bind_Ok _ _ _ _ _ Hscan). exact Htail. }
  exists (unlocked s2), (pre ++ evs). split.
  { unfold initLoggerBySize.
    etransitivity; [apply bind_Ok, mu_Lock_run, Hmu|].
    apply defer_unlock_Ok. exact Hbody. }
  cbn [unlocked self sys mu with_mu lg splitType fileCount fileSize].
  split; [reflexivity|]. split; [exact Hlg2|]. split; [exact Hs2|].
  split; [congruence|]. split; [congruence|]. split.
  - hist. hist_in Hh1. rewrite Hh2, Hh1. lists. reflexivity.
  - rewrite in_app_iff, Hin.
    rewrite (size_due_same f f1 w w1 Hc1 Hz1 Hp1 Hn1 Hi1). tauto.
Qed.

Lemma NewSizeLogger_run (dir name pre : string) (count size : Z) (unit : UNIT)
    (w : World) :
  exists s evs,
    NewSizeLogger dir name pre count size unit w = Ok tt s /\
    mu (self s) = false /\ is_Some (lg (self s)) /\
    splitType (self s) = SplitType_Size /\
    fileCount (self s) = count /\ fileSize (self s) = wrap64 (size * unit) /\
    history (sys s) = history w ++ EvLock :: evs ++ [EvGo; EvUnlock] /\
    (In EvSplit evs <->
     1 < count /\
     wrap64 (size * unit) <= on_disk_size w (Util.joinFilePath dir name)).
Proof.
  set (f := mkFileLogger SplitType_Size false dir name 0 count
              (wrap64 (size * unit)) pre None None None).
  destruct (initLoggerBySize_run f w eq_refl eq_refl)
    as (s & evs & Hrun & Hmu & Hlg & Hs & Hc & Hz & Hh & Hin).
  exists s, evs. split; [exact Hrun|].
  repeat (split; [assumption|]).
  rewrite Hin. unfold size_due. rewrite andb_true_iff, Z.ltb_lt, Z.leb_le.
  reflexivity.
Qed.

(** C9, as worded: the threshold is not always the exact product.  For a
    size of [2^23] and the unit [TB] the product is [2^63], which [int64]
    does not hold; the logger gets [- 2^63]. *)
Lemma threshold_wraps_around :
  ~ exact_threshold "logs" "app.log" "" 3 8388608 TB sample_world.
Proof.
  intros (s & Hrun & Hz).
  destruct (NewSizeLogger_run "logs" "app.log" "" 3 8388608 TB sample_world)
    as (s0 & evs & Hrun0 & _ & _ & _ & _ & Hz0 & _).
  rewrite Hrun0 in Hrun. injection Hrun as <-.
  rewrite Hz0 in Hz. vm_compute in Hz. discriminate Hz.
Qed.

(** C9, amended: the units are the binary powers [1024], [1024^2],
    [1024^3] and [1024^4], and every size-mode construction returns a
    logger whose threshold is the product of the given size and unit in
    [int64] arithmetic: the exact product when that fits in 64 bits, and
    the product wrapped around otherwise. *)
Theorem threshold_is_int64_product (dir name pre : string) (count size : Z)
    (unit : UNIT) (w : World) :
  KB = 1024 /\ MB = 1024 ^ 2 /\ GB = 1024 ^ 3 /\ TB = 1024 ^ 4 /\
  exists s,
    NewSizeLogger dir name pre count size unit w = Ok tt s /\
    fileSize (self s) = wrap64 (size * unit) /\
    (in_int64 (size * unit) -> fileSize (self s) = size * unit).
Proof.
  repeat (split; [reflexivity|]).
  destruct (NewSizeLogger_run dir name pre count size unit w)
    as (s & evs & Hrun & _ & _ & _ & _ & Hz & _).
  exists s. split; [exact Hrun|]. split; [exact Hz|].
  intros Hfit. rewrite Hz. now apply wrap64_id.
Qed.

Lemma threshold_is_int64_product_witness :
  in_int64 (50 * MB) /\
  exists s,
    NewSizeLogger "logs" "app.log" "" 10 50 MB sample_world = Ok tt s /\
    fileSize (self s) = 52428800.
Proof.
  assert (Hfit : in_int64 (50 * MB)) by (vm_compute; split; discriminate).
  split; [exact Hfit|].
  destruct (threshold_is_int64_product "logs" "app.log" "" 10 50 MB sample_world)
    as (_ & _ & _ & _ & s & Hrun & _ & Hexact).
  exists s. split; [exact Hrun|]. rewrite (Hexact Hfit). reflexivity.
Defined.

(** *** Fewer than two backups *)

Lemma fileCheck_below_two (s : State) :
  splitType (self s) = SplitType_Size -> fileCount (self s) <= 1 ->
  isMustSplit s = Ok false s /\ fileCheck s = Ok tt s.
Proof.
  destruct s as [f w]. cbn [self sys]. intros Hs Hc.
  assert (Hrun : isMustSplit {| self := f; sys := w |}
                 = Ok false {| self := f; sys := w |}).
  { rewrite (isMustSplit_size_run f w Hs).
    destruct (1 <? fileCount f) eqn:E; [apply Z.ltb_lt in E; lia|reflexivity]. }
  split; [exact Hrun|]. now apply fileCheck_idle.
Qed.

Lemma ticking_below_two (n : nat) (s : State) :
  splitType (self s) = SplitType_Size -> fileCount (self s) <= 1 ->
  ticking n s = Ok tt s.
Proof.
  intros Hs Hc. induction n as [|n IH]; [reflexivity|].
  change (bind fileCheck (fun _ => ticking n) s = Ok tt s).
  rewrite (bind_Ok fileCheck (fun _ => ticking n) s s tt
             (proj2 (fileCheck_below_two s Hs Hc))).
  exact IH.
Qed.

(** C10: with [fileCount <= 1] the size policy always answers false, so
    that neither [NewSizeLogger] nor any tick of the monitor enters [split]:
    construction returns normally (also with [fileCount = 0]) without a
    rotation, and the monitor's ticks leave the logger and the files as
    they are.  [split] itself, entered with [fileCount = 0], would panic
    on the division. *)
Theorem no_rotation_below_two_backups (dir name pre : string) (count size : Z)
    (unit : UNIT) (w : World) :
  count <= 1 ->
  (exists s evs,
     NewSizeLogger dir name pre count size unit w = Ok tt s /\
     fileCount (self s) = count /\
     history (sys s) = history w ++ evs /\ ~ In EvSplit evs /\
     isMustSplit s = Ok false s /\
     forall n, exists s',
       fileMonitor n s = Ok tt s' /\ self s' = self s /\
       history (sys s') = history (sys s) ++ [EvTicker (60 * Second)]) /\
  (forall s0, splitType (self s0) = SplitType_Size -> fileCount (self s0) = 0 ->
     exists s', split s0 = Panic divide_by_zero s').
Proof.
  intros Hc. split.
  - destruct (NewSizeLogger_run dir name pre count size unit w)
      as (s & evs & Hrun & _ & _ & Hs & Hcount & _ & Hh & Hin).
    exists s, (EvLock :: evs ++ [EvGo; EvUnlock]).
    split; [exact Hrun|]. split; [exact Hcount|]. split; [exact Hh|].
    rewrite <- Hcount in Hc. split; [|split].
    + intros [H|H]; [discriminate|].
      apply in_app_or in H as [H|[H|[H|[]]]]; try discriminate.
      apply Hin in H. lia.
    + apply (fileCheck_below_two s Hs Hc).
    + intros n. unfold fileMonitor.
      eexists. rewrite (bind_Ok (mark _) _ s _ tt eq_refl).
      rewrite ticking_below_two by assumption.
      split; [reflexivity|]. split; reflexivity.
  - intros [f0 w0] Hs0 Hc0. cbn [self] in *. eexists.
    unfold split. unfold_calls. cbn. rewrite Hs0, Hc0. reflexivity.
Qed.

Lemma no_rotation_below_two_backups_witness :
  0 <= 1 /\
  exists s, NewSizeLogger "logs" "app.log" "" 0 1 KB sample_world = Ok tt s /\
            fileCount (self s) = 0.
Proof.
  assert (H : 0 <= 1) by lia. split; [exact H|].
  destruct (proj1 (no_rotation_below_two_backups "logs" "app.log" "" 0 1 KB
                     sample_world H))
    as (s & evs & Hrun & Hc & _).
  exists s. split; [exact Hrun|exact Hc].
Defined.

(** *** The monitor *)

(** Below its [recover], [fileCheck] never stays parked on the mutex it
    found free, gives it back on every way out, and keeps the
    configuration and the line-writer. *)
Lemma fileCheck_body_frame (s : State) :
  mu (self s) = false ->
  (forall s', fileCheck_body s <> Block s') /\
  mu (self (final (fileCheck_body s))) = false /\
  same_config (self s) (self (final (fileCheck_body s))) /\
  exists evs, history (sys (final (fileCheck_body s))) = history (sys s) ++ evs.
Proof.
  intros Hmu.
  destruct (isMustSplit_frame s) as (w1 & evs1 & Hrun & Hh1 & _).
  destruct Hrun as [[[] Hrun]|Hrun].
  - rewrite (fileCheck_body_rotates s _ Hrun Hmu).
    destruct (split_frame (locked {| self := self s; sys := w1 |}))
      as (Hnb & Hmu2 & Hcfg & evs2 & Hh2).
    cbn [locked self sys] in *. hist_in Hh2.
    destruct (split _) as [[] s2|v s2|s2] eqn:Hsplit; cbn [final] in *.
    + split; [discriminate|]. split; [reflexivity|]. split.
      { unfold same_config, logFilePath in *. cbn in *. intuition eauto. }
      eexists. hist. rewrite Hh2, Hh1. lists. reflexivity.
    + split; [discriminate|]. split; [reflexivity|]. split.
      { unfold same_config, logFilePath in *. cbn in *. intuition eauto. }
      eexists. hist. rewrite Hh2, Hh1. lists. reflexivity.
    + exfalso. eapply Hnb. reflexivity.
  - assert (Hbody : fileCheck_body s = Ok tt {| self := self s; sys := w1 |}).
    { unfold fileCheck_body, bind. now rewrite Hrun. }
    rewrite Hbody. cbn [final self sys]. split; [discriminate|].
    split; [exact Hmu|]. split; [apply same_config_refl|eauto].
  - assert (Hbody : fileCheck_body s
                    = Panic nil_dereference {| self := self s; sys := w1 |}).
    { unfold fileCheck_body, bind. now rewrite Hrun. }
    rewrite Hbody. cbn [final self sys]. split; [discriminate|].
    split; [exact Hmu|]. split; [apply same_config_refl|eauto].
Qed.






(** *** Who calls [split] *)

(** [initLoggerByDaily] on a logger whose mutex is free: it reads the
    clock, takes the lock, reads the clock again for the policy, and enters
    [split] exactly when midnight fell between the two readings. *)
Lemma initLoggerByDaily_run (f : FileLogger) (w : World) :
  splitType f = SplitType_Daily -> mu f = false ->
  exists evs,
    (forall s', initLoggerByDaily {| self := f; sys := w |} <> Block s') /\
    mu (self (final (initLoggerByDaily {| self := f; sys := w |}))) = false /\
    history (sys (final (initLoggerByDaily {| self := f; sys := w |}))) =
      history w ++ EvNow (now_of w) :: EvLock
        :: EvNow (clock w (S (reads w))) :: evs /\
    (In EvSplit evs <-> dayOf (now_of w) < dayOf (clock w (S (reads w)))).
Proof.
  intros Hs Hmu.
  set (f1 := with_mu true (with_date (Some (truncateToDay (now_of w))) f)).
  set (w1 := record EvLock (record (EvNow (now_of w)) (advance w))).
  assert (Hs1 : splitType f1 = SplitType_Daily) by exact Hs.
  pose proof (isMustSplit_daily_run f1 w1 (truncateToDay (now_of w)) Hs1 eq_refl)
    as Hpol.
  change (now_of w1) with (clock w (S (reads w))) in Hpol.
  set (w2 := record (EvNow (clock w (S (reads w)))) (advance w1)) in Hpol.
  assert (Hday : After (truncateToDay (clock w (S (reads w))))
                   (truncateToDay (now_of w)) = true
                 <-> dayOf (now_of w) < dayOf (clock w (S (reads w)))).
  { unfold After, truncateToDay. rewrite Z.ltb_lt. lia. }
  assert (Hh2 : history w2 = history w ++ [EvNow (now_of w); EvLock;
                                            EvNow (clock w (S (reads w)))]).
  { subst w2 w1. hist. lists. reflexivity. }
  assert (Hinit : forall r : Res unit,
    (must <- isMustSplit ;;
     (if negb must then open_active f1 (logFilePath f1) else split) ;;
     go_fileMonitor) {| self := f1; sys := w1 |} = r ->
    initLoggerByDaily {| self := f; sys := w |} =
    match r with
    | Ok a s2 => Ok a (unlocked s2)
    | Panic v s2 => Panic v (unlocked s2)
    | Block s2 => Block s2
    end).
  { intros r Hr. clear Hpol Hday Hh2 w2. subst r.
    unfold initLoggerByDaily. unfold_calls. cbn.
    rewrite Hmu. cbn. subst f1 w1. unfold now_of. cbn.
    destruct (isMustSplit _) as [[] s2|v s2|s2]; cbn [negb];
      [destruct (split s2) as [[] s3|v s3|s3]
      |destruct (open_active _ _ s2) as [[] s3|v s3|s3]| |]; reflexivity. }
  destruct (After (truncateToDay (clock w (S (reads w)))) (truncateToDay (now_of w)))
    eqn:Hdue.
  - (* midnight fell between the readings: split *)
    destruct (split_frame {| self := f1; sys := w2 |})
      as (Hnb & Hmu3 & _ & evs & Hh3).
    cbn [self sys] in *.
    destruct (split {| self := f1; sys := w2 |}) as [[] s3|v s3|s3] eqn:Hsplit;
      cbn [final] in *.
    + pose proof (Hinit _ eq_refl) as Hi.
      rewrite (bind_Ok _ _ _ _ _ Hpol) in Hi. cbn [negb] in Hi.
      rewrite (bind_Ok _ _ _ _ _ Hsplit) in Hi.
      unfold go_fileMonitor, mark, call in Hi. rewrite Hi.
      exists (EvSplit :: evs ++ [EvGo; EvUnlock]). cbn [final unlocked self sys].
      split; [discriminate|]. split; [reflexivity|]. split.
      * hist. rewrite Hh3, Hh2. lists. reflexivity.
      * split; [intros _; now apply Hday|intros _; now left].
    + pose proof (Hinit _ eq_refl) as Hi.
      rewrite (bind_Ok _ _ _ _ _ Hpol) in Hi. cbn [negb] in Hi.
      unfold bind in Hi. rewrite Hsplit in Hi. rewrite Hi.
      exists (EvSplit :: evs ++ [EvUnlock]). cbn [final unlocked self sys].
      split; [discriminate|]. split; [reflexivity|]. split.
      * hist. rewrite Hh3, Hh2. lists. reflexivity.
      * split; [intros _; now apply Hday|intros _; now left].
    + exfalso. eapply Hnb. reflexivity.
  - (* the same day: open the active file *)
    destruct (open_active_run f1 (logFilePath f1) f1 w2) as (W & Hrun & Hh).
    pose proof (Hinit _ eq_refl) as Hi.
    rewrite (bind_Ok _ _ _ _ _ Hpol) in Hi. cbn [negb] in Hi.
    rewrite (bind_Ok _ _ _ _ _ Hrun) in Hi.
    unfold go_fileMonitor, mark, call in Hi. rewrite Hi.
    exists (preparing w2 (fileDir f1) ++ [EvOpenFile (logFilePath f1); EvGo; EvUnlock]).
    cbn [final unlocked self sys].
    split; [discriminate|]. split; [reflexivity|]. split.
    + hist. rewrite Hh, Hh2. lists. reflexivity.
    + split.
      * intros H. apply in_app_or in H as [H|[H|[H|[H|[]]]]]; try discriminate.
        now apply not_in_preparing in H.
      * intros H. apply Hday in H. discriminate.
Qed.

(** C7, amended: [fileCheck] reads the rotation policy first, with the
    mutex free; when the policy answers false (or panics) it returns
    without taking the lock or entering [split]; only when the policy
    answers true does it take the write lock, enter [split] at once, and
    give the lock back on the way out.  Besides [fileCheck], [split] is
    entered by the two constructors only, there too under the lock and
    exactly when the policy asks for it. *)
Theorem fileCheck_checks_then_locks (s : State) :
  mu (self s) = false ->
  (exists w1 looks,
     history w1 = history (sys s) ++ looks /\ forallb is_read looks = true /\
     ((isMustSplit s = Ok false {| self := self s; sys := w1 |} /\
       fileCheck s = Ok tt {| self := self s; sys := w1 |}) \/
      (isMustSplit s = Panic nil_dereference {| self := self s; sys := w1 |} /\
       fileCheck s = fileCheck_recover nil_dereference {| self := self s; sys := w1 |}) \/
      (isMustSplit s = Ok true {| self := self s; sys := w1 |} /\
       exists rest,
         history (sys (final (fileCheck s)))
           = history w1 ++ EvLock :: EvSplit :: rest /\
         In EvUnlock rest /\ mu (self (final (fileCheck s))) = false))) /\
  (forall dir name pre count size unit w,
     exists s' evs,
       NewSizeLogger dir name pre count size unit w = Ok tt s' /\
       history (sys s') = history w ++ EvLock :: evs ++ [EvGo; EvUnlock] /\
       (In EvSplit evs <->
        1 < count /\
        wrap64 (size * unit) <= on_disk_size w (Util.joinFilePath dir name))) /\
  (forall dir name pre w,
     exists evs,
       history (sys (final (NewDailyLogger dir name pre w)))
         = history w ++ EvNow (now_of w) :: EvLock
             :: EvNow (clock w (S (reads w))) :: evs /\
       (In EvSplit evs <-> dayOf (now_of w) < dayOf (clock w (S (reads w))))).
Proof.
  intros Hmu. split; [|split].
  - destruct (isMustSplit_frame s) as (w1 & looks & Hrun & Hh1 & Hlooks).
    exists w1, looks. split; [exact Hh1|]. split; [exact Hlooks|].
    destruct Hrun as [[[] Hrun]|Hrun].
    + right. right. split; [exact Hrun|].
      pose proof (fileCheck_body_rotates s _ Hrun Hmu) as Hbody.
      destruct (split_frame (locked {| self := self s; sys := w1 |}))
        as (Hnb & Hmu2 & _ & evs & Hh2).
      hist_in Hh2.
      destruct (split _) as [[] s2|v s2|s2] eqn:Hsplit; cbn [final] in *.
      * assert (Hrun' : fileCheck s = Ok tt (unlocked s2)).
        { unfold fileCheck, recovering. now rewrite Hbody. }
        rewrite Hrun'. exists (evs ++ [EvUnlock]). cbn [final].
        split; [hist; rewrite Hh2; lists; reflexivity|].
        split; [apply in_or_app; right; now left|reflexivity].
      * rewrite (fileCheck_caught _ _ _ Hbody).
        destruct (fileCheck_recover_final v (unlocked s2)) as (_ & Hself & evs3 & Hh3).
        exists (evs ++ EvUnlock :: evs3).
        split; [rewrite Hh3; hist; rewrite Hh2; lists; reflexivity|].
        split; [apply in_or_app; right; now left|].
        rewrite Hself. reflexivity.
      * exfalso. eapply Hnb. reflexivity.
    + left. split; [exact Hrun|]. exact (fileCheck_idle _ _ Hrun).
    + right. left. split; [exact Hrun|].
      apply fileCheck_caught. unfold fileCheck_body, bind. now rewrite Hrun.
  - intros dir name pre count size unit w.
    destruct (NewSizeLogger_run dir name pre count size unit w)
      as (s' & evs & Hrun & _ & _ & _ & _ & _ & Hh & Hin).
    exists s', evs. auto.
  - intros dir name pre w.
    set (f := mkFileLogger SplitType_Daily false dir name 0 0 0 pre None None None).
    destruct (initLoggerByDaily_run f w eq_refl eq_refl) as (evs & _ & _ & Hh & Hin).
    exists evs. split; [exact Hh|exact Hin].
Qed.

Lemma fileCheck_checks_then_locks_witness :
  mu (self oversized) = false /\
  exists rest,
    history (sys (final (fileCheck oversized)))
      = EvStat "logs/app.log" :: EvLock :: EvSplit :: rest.
Proof.
  split; [reflexivity|].
  destruct (proj1 (fileCheck_checks_then_locks oversized eq_refl))
    as (w1 & looks & Hh1 & _ & [[Hrun _]|[[Hrun _]|[Hrun (rest & Hh & _)]]]).
  - exfalso. vm_compute in Hrun. discriminate Hrun.
  - exfalso. vm_compute in Hrun. discriminate Hrun.
  - exists rest. rewrite Hh.
    vm_compute in Hrun. injection Hrun as <-. reflexivity.
Defined.

(** * Further properties of the package *)

(** ** What a rotation leaves behind *)

(** Opening a path that names no file leaves an empty file there, or none. *)
Lemma opening_absent_size (cut : bool) (p : string) (w : World) :
  names w !! p = None -> on_disk_size (opening cut p w) p = 0.
Proof.
  intros Hfree. unfold on_disk_size, stat_size, opening, inode_for, is_file. cbn.
  rewrite Hfree.
  replace (bool_decide (is_Some (@None nat))) with false by reflexivity.
  destruct (open_ok w p); cbn; lookups; [|rewrite Hfree; reflexivity].
  rewrite orb_true_r. lookups. reflexivity.
Qed.

(** ... and touches no other entry and no other file. *)
Lemma opening_absent_frame (cut : bool) (p : string) (w : World) :
  names w !! p = None ->
  dirs (opening cut p w) = dirs w /\
  (forall q, q <> p -> names (opening cut p w) !! q = names w !! q) /\
  (forall i, i <> next_ino w -> inodes (opening cut p w) !! i = inodes w !! i).
Proof.
  intros Hfree. unfold opening, inode_for, is_file. cbn. rewrite Hfree.
  replace (bool_decide (is_Some (@None nat))) with false by reflexivity.
  split; [reflexivity|]. rewrite orb_true_r.
  destruct (open_ok w p); cbn; split; intros; lookups; reflexivity.
Qed.

(** The environment [split] reaches in size mode right before it creates
    the new active file. *)
Lemma split_size_world (f : FileLogger) (w : World) :
  splitType f = SplitType_Size -> fileCount f <> 0 ->
  exists W,
    split {| self := f; sys := w |} =
    Ok tt {| self := with_lg
                       (Some (log_New (handle_for W (logFilePath f))
                                (prefix f) logger_flags))
                       (with_logFile (handle_for W (logFilePath f))
                          (with_suffix (next_index f) f));
             sys := record (EvCreate (logFilePath f))
                      (opening true (logFilePath f) W) |} /\
    names W !! logFilePath f = None /\
    names W !! backup_path f (next_index f) = names w !! logFilePath f /\
    (forall q, q <> backup_path f (next_index f) -> q <> logFilePath f ->
               names W !! q = names w !! q) /\
    dirs W = dirs w /\ inodes W = inodes w /\ next_ino W = next_ino w /\
    clock W = clock w /\ reads W = reads w.
Proof.
  intros Hs Hc. destruct w as [d n i o ni nf c r t].
  unfold split, next_index, backup_path. unfold_calls. cbn. rewrite Hs.
  destruct (fileCount f =? 0) eqn:E; [lia|]. cbn.
  set (idx := wrap64 (wrap64 (suffix f `rem` fileCount f) + 1)).
  set (bak := logFilePath f +:+ "." +:+ Itoa idx).
  assert (Hne : bak <> logFilePath f) by apply backup_path_differs.
  destruct (logFile f) as [file|]; cbn;
    (destruct (stat_ok _ bak) eqn:Hstat; cbn;
     (eexists; split; [reflexivity|]; cbn; unfold renamed, stat_ok, is_file, is_dir in *;
      cbn in *; lookups;
      destruct (n !! logFilePath f) as [ino|] eqn:Hact; cbn;
      try apply not_stat_no_entry in Hstat;
      repeat split; try reflexivity; lookups; try reflexivity;
      try (symmetry; assumption); try assumption;
      intros q Hq1 Hq2; lookups; reflexivity)).
Qed.

(** X1: a rotation by size always leaves the active path at size 0 (a new
    empty file, or none when it could not be created), whatever was there
    before.  With a positive threshold the check that follows therefore
    finds nothing to do: it returns with the logger and all files as the
    rotation left them. *)
Theorem size_split_empties_active (s : State) :
  splitType (self s) = SplitType_Size -> fileCount (self s) <> 0 ->
  exists s',
    split s = Ok tt s' /\
    on_disk_size (sys s') (logFilePath (self s)) = 0 /\
    (0 < fileSize (self s) ->
     exists s'', fileCheck s' = Ok tt s'' /\ self s'' = self s' /\
                 same_files (sys s') (sys s'')).
Proof.
  destruct s as [f w]. cbn [self sys]. intros Hs Hc.
  destruct (split_size_world f w Hs Hc) as (W & Hrun & Hfree & _).
  eexists. split; [exact Hrun|]. cbn [self sys].
  assert (Hsize : on_disk_size (record (EvCreate (logFilePath f))
                                  (opening true (logFilePath f) W))
                    (logFilePath f) = 0)
    by exact (opening_absent_size true (logFilePath f) W Hfree).
  split; [exact Hsize|]. intros Hpos.
  match goal with |- context [fileCheck ?st] => set (s1 := st) end.
  assert (Hs1 : splitType (self s1) = SplitType_Size) by exact Hs.
  pose proof (isMustSplit_size_run (self s1) (sys s1) Hs1) as Hpol.
  change (logFilePath (self s1)) with (logFilePath f) in Hpol.
  change (fileSize (self s1)) with (fileSize f) in Hpol.
  change (on_disk_size (sys s1) (logFilePath f)) with
    (on_disk_size (record (EvCreate (logFilePath f))
                     (opening true (logFilePath f) W)) (logFilePath f)) in Hpol.
  rewrite Hsize in Hpol.
  assert (Hle : (fileSize f <=? 0) = false) by (apply Z.leb_gt; exact Hpos).
  rewrite Hle in Hpol.
  destruct (1 <? fileCount (self s1)).
  - eexists. split; [exact (fileCheck_idle s1 _ Hpol)|]. cbn [self sys].
    split; [reflexivity|]. unfold same_files. auto.
  - eexists. split; [exact (fileCheck_idle s1 _ Hpol)|]. cbn [self sys].
    split; [reflexivity|]. unfold same_files. auto.
Qed.

Lemma size_split_empties_active_witness :
  splitType (self oversized) = SplitType_Size /\ fileCount (self oversized) <> 0 /\
  exists s', split oversized = Ok tt s' /\
             on_disk_size (sys s') "logs/app.log" = 0.
Proof.
  assert (Hc : fileCount (self oversized) <> 0) by discriminate.
  split; [reflexivity|]. split; [exact Hc|].
  destruct (size_split_empties_active oversized eq_refl Hc) as (s' & Hrun & Hsize & _).
  exists s'. split; [exact Hrun|exact Hsize].
Defined.



(** The environment [split] reaches in daily mode right before it creates
    the new active file, when the rename went through. *)
Lemma split_daily_world (f : FileLogger) (w : World) (d : Time) (i : nat) :
  splitType f = SplitType_Daily -> date f = Some d ->
  stat_ok w (daily_backup f d) = false ->
  After (truncateToDay (now_of w)) d = true ->
  names w !! logFilePath f = Some i ->
  exists W,
    split {| self := f; sys := w |} =
    Ok tt {| self := with_lg
                       (Some (log_New (handle_for W (logFilePath f))
                                (prefix f) logger_flags))
                       (with_logFile (handle_for W (logFilePath f))
                          (with_date
                             (Some (truncateToDay (clock w (S (reads w))))) f));
             sys := record (EvCreate (logFilePath f))
                      (opening true (logFilePath f) W) |} /\
    names W = <[daily_backup f d := i]> (delete (logFilePath f) (names w)) /\
    dirs W = dirs w /\ inodes W = inodes w /\ next_ino W = next_ino w /\
    history W =
      history w
        ++ [EvSplit; EvStat (daily_backup f d); EvNow (now_of w)]
        ++ closing (logFile f)
        ++ [EvRename (logFilePath f) (daily_backup f d);
            EvNow (clock w (S (reads w)))].
Proof.
  intros Hs Hd Hstat Hdue Hact. destruct w as [dd n ii o ni nf c r t].
  unfold split, daily_backup in *.
  unfold_calls. cbn. rewrite Hs, Hd. cbn.
  change (stat_ok (record EvSplit ?w) ?p) with (stat_ok w p). rewrite Hstat. cbn.
  rewrite (isMustSplit_daily_run f _ d Hs Hd).
  change (now_of (record ?e (record ?e' ?w))) with (now_of w). rewrite Hdue. cbn.
  unfold rename_error, renamed, now_of, history. cbn in *.
  destruct (logFile f) as [file|]; cbn; rewrite Hact; cbn.
  all: eexists; split; [reflexivity|]; cbn; rewrite ?Hact.
  all: repeat split; chain; reflexivity.
Qed.

(** X3: a daily rotation that is due, with the active file in place and no
    backup yet for the stored date, moves the active file to the backup
    named after the stored date (same file, same length), leaves the
    active path at size 0, advances the stored date to today, and makes no
    error report. *)
Theorem daily_split_archives (s : State) (d : Time) (i : nat) :
  splitType (self s) = SplitType_Daily -> date (self s) = Some d ->
  stat_ok (sys s) (daily_backup (self s) d) = false ->
  After (truncateToDay (now_of (sys s))) d = true ->
  names (sys s) !! logFilePath (self s) = Some i -> i <> next_ino (sys s) ->
  exists s',
    split s = Ok tt s' /\
    names (sys s') !! daily_backup (self s) d = Some i /\
    on_disk_size (sys s') (daily_backup (self s) d)
      = on_disk_size (sys s) (logFilePath (self s)) /\
    on_disk_size (sys s') (logFilePath (self s)) = 0 /\
    date (self s') = Some (truncateToDay (clock (sys s) (S (reads (sys s))))) /\
    history (sys s') =
      history (sys s)
        ++ [EvSplit; EvStat (daily_backup (self s) d); EvNow (now_of (sys s))]
        ++ closing (logFile (self s))
        ++ [EvRename (logFilePath (self s)) (daily_backup (self s) d);
            EvNow (clock (sys s) (S (reads (sys s))));
            EvCreate (logFilePath (self s))].
Proof.
  destruct s as [f w]. cbn [self sys]. intros Hs Hd Hstat Hdue Hact Hfresh.
  destruct (split_daily_world f w d i Hs Hd Hstat Hdue Hact)
    as (W & Hrun & Hnames & Hdirs & Hino & Hni & Hh).
  assert (Hne : daily_backup f d <> logFilePath f) by apply backup_path_differs.
  assert (Hfree : names W !! logFilePath f = None).
  { rewrite Hnames. lookups. reflexivity. }
  destruct (opening_absent_frame true (logFilePath f) W Hfree) as (_ & Hn & Hi).
  assert (Hb : names (opening true (logFilePath f) W) !! daily_backup f d = Some i).
  { rewrite Hn by exact Hne. rewrite Hnames. lookups. reflexivity. }
  eexists. split; [exact Hrun|]. cbn [self sys date with_lg with_logFile with_date].
  split; [exact Hb|]. split; [|split; [|split]].
  - unfold on_disk_size, stat_size.
    change (names (record ?e ?w0)) with (names w0).
    change (inodes (record ?e ?w0)) with (inodes w0).
    rewrite Hb, Hact. rewrite Hi by (rewrite Hni; exact Hfresh). now rewrite Hino.
  - exact (opening_absent_size true (logFilePath f) W Hfree).
  - reflexivity.
  - hist. rewrite Hh. lists. reflexivity.
Qed.

Lemma daily_split_archives_witness :
  splitType (self stale_daily) = SplitType_Daily /\
  date (self stale_daily) = Some (truncateToDay 1700000000) /\
  stat_ok (sys stale_daily)
    (daily_backup (self stale_daily) (truncateToDay 1700000000)) = false /\
  After (truncateToDay (now_of (sys stale_daily))) (truncateToDay 1700000000) = true /\
  names (sys stale_daily) !! logFilePath (self stale_daily) = Some 0%nat /\
  0%nat <> next_ino (sys stale_daily) /\
  exists s', split stale_daily = Ok tt s' /\
             names (sys s') !! "logs/app.log.2023-11-14" = Some 0%nat.
Proof.
  assert (H3 : stat_ok (sys stale_daily)
                 (daily_backup (self stale_daily) (truncateToDay 1700000000)) = false)
    by (vm_compute; reflexivity).
  assert (H4 : After (truncateToDay (now_of (sys stale_daily)))
                 (truncateToDay 1700000000) = true) by (vm_compute; reflexivity).
  assert (H5 : names (sys stale_daily) !! logFilePath (self stale_daily) = Some 0%nat)
    by (vm_compute; reflexivity).
  assert (H6 : 0%nat <> next_ino (sys stale_daily)) by discriminate.
  repeat (split; [first [reflexivity | assumption]|]).
  destruct (daily_split_archives stale_daily (truncateToDay 1700000000) 0%nat
              eq_refl eq_refl H3 H4 H5 H6) as (s' & Hrun & Hb & _).
  exists s'. split; [exact Hrun|]. exact Hb.
Defined.

(** ** The deferred calls of [fileCheck] *)

(** A panic of [split] leaves the fields of the logger as it found them. *)
Lemma split_panic_self (s s1 : State) (v : string) :
  split s = Panic v s1 -> self s1 = self s.
Proof.
  destruct s as [f w]. cbn [self]. intros Hp.
  destruct (splitType f) eqn:Hs.
  - destruct (fileCount f =? 0) eqn:Hc.
    + assert (Hrun : split {| self := f; sys := w |}
                     = Panic divide_by_zero {| self := f; sys := record EvSplit w |}).
      { unfold split. unfold_calls. cbn. rewrite Hs, Hc. reflexivity. }
      rewrite Hrun in Hp. now injection Hp as _ <-.
    + apply Z.eqb_neq in Hc.
      destruct (split_size_run f w Hs Hc) as (h & w' & Hrun & _).
      rewrite Hrun in Hp. discriminate.
  - destruct (date f) as [d|] eqn:Hd.
    + destruct (stat_ok w (daily_backup f d)) eqn:Hstat;
        [|destruct (After (truncateToDay (now_of w)) d) eqn:Hdue].
      * destruct (split_daily_idle f w d Hs Hd (or_introl Hstat)) as (w' & evs & Hrun & _).
        rewrite Hrun in Hp. discriminate.
      * destruct (split_daily_acts f w d Hs Hd Hstat Hdue)
          as [(W & Hrun & _) | (_ & _ & W & Hrun & _)]; rewrite Hrun in Hp;
          [discriminate|]. now injection Hp as _ <-.
      * destruct (split_daily_idle f w d Hs Hd (or_intror Hdue)) as (w' & evs & Hrun & _).
        rewrite Hrun in Hp. discriminate.
    + assert (Hrun : split {| self := f; sys := w |}
                     = Panic nil_dereference {| self := f; sys := record EvSplit w |}).
      { unfold split. unfold_calls. cbn. rewrite Hs, Hd. reflexivity. }
      rewrite Hrun in Hp. now injection Hp as _ <-.
Qed.

(** A panic below the [recover] of [fileCheck] leaves the line-writer as
    it was. *)
Lemma fileCheck_body_panic_lg (s s1 : State) (v : string) :
  mu (self s) = false -> fileCheck_body s = Panic v s1 ->
  lg (self s1) = lg (self s) /\ mu (self s1) = false.
Proof.
  intros Hmu Hp.
  destruct (isMustSplit_frame s) as (w1 & evs1 & Hrun & _).
  destruct Hrun as [[[] Hrun]|Hrun].
  - rewrite (fileCheck_body_rotates s _ Hrun Hmu) in Hp.
    destruct (split _) as [[] s2|v2 s2|s2] eqn:Hsplit; try discriminate.
    injection Hp as _ <-. apply split_panic_self in Hsplit.
    cbn [unlocked self]. rewrite Hsplit. cbn. auto.
  - unfold fileCheck_body, bind in Hp. rewrite Hrun in Hp. discriminate.
  - unfold fileCheck_body, bind in Hp. rewrite Hrun in Hp.
    injection Hp as _ <-. cbn. auto.
Qed.

(** X4: the deferred function of [fileCheck] itself goes through the
    line-writer.  On a logger that has none, a panic raised below it is not
    contained: [fileCheck] panics in turn, on the nil pointer, and the
    monitor ends with that panic at its next tick (the mutex, however, is
    free by then). *)
Theorem fileCheck_without_writer (s s1 : State) (v : string) (n : nat) :
  lg (self s) = None -> mu (self s) = false ->
  fileCheck_body s = Panic v s1 ->
  fileCheck s = Panic nil_dereference s1 /\
  ticking (S n) s = Panic nil_dereference s1 /\
  mu (self s1) = false.
Proof.
  intros Hlg Hmu Hp.
  destruct (fileCheck_body_panic_lg s s1 v Hmu Hp) as [Hlg1 Hmu1].
  rewrite Hlg in Hlg1.
  assert (Hc : fileCheck s = Panic nil_dereference s1).
  { rewrite (fileCheck_caught _ _ _ Hp).
    unfold fileCheck_recover. unfold_calls. cbn. rewrite Hlg1. now destruct s1. }
  split; [exact Hc|]. split; [|exact Hmu1].
  change (ticking (S n) s) with (bind fileCheck (fun _ => ticking n) s).
  unfold bind. now rewrite Hc.
Qed.

Lemma fileCheck_without_writer_witness :
  lg (self bare_daily) = None /\ mu (self bare_daily) = false /\
  exists s1,
    fileCheck_body bare_daily = Panic nil_dereference s1 /\
    ticking 1 bare_daily = Panic nil_dereference s1.
Proof.
  split; [reflexivity|]. split; [reflexivity|].
  assert (Hp : exists s1, fileCheck_body bare_daily = Panic nil_dereference s1)
    by (eexists; vm_compute; reflexivity).
  destruct Hp as [s1 Hp]. exists s1. split; [exact Hp|].
  exact (proj1 (proj2 (fileCheck_without_writer bare_daily s1 nil_dereference 0
                         eq_refl eq_refl Hp))).
Defined.

(** X5: [fileCheck] never keeps the lock.  Entered with the mutex free, it
    does not park on it, and whether it returns or panics (in [split], or
    again in its own deferred function) the mutex is free afterwards and
    the mode, the limits and the paths of the logger are what they were. *)
Theorem fileCheck_releases_lock (s : State) :
  mu (self s) = false ->
  (forall s', fileCheck s <> Block s') /\
  mu (self (final (fileCheck s))) = false /\
  same_config (self s) (self (final (fileCheck s))).
Proof.
  intros Hmu.
  destruct (fileCheck_body_frame s Hmu) as (Hnb & Hmu1 & Hcfg & _).
  destruct (fileCheck_body s) as [[] s1|v s1|s1] eqn:Hbody; cbn [final] in *.
  - assert (Hrun : fileCheck s = Ok tt s1).
    { unfold fileCheck, recovering. now rewrite Hbody. }
    rewrite Hrun. cbn [final]. split; [discriminate|]. auto.
  - rewrite (fileCheck_caught _ _ _ Hbody).
    destruct (fileCheck_recover_final v s1) as (Hnb' & Hself & _).
    split; [exact Hnb'|]. rewrite Hself. auto.
  - exfalso. eapply Hnb. reflexivity.
Qed.

Lemma fileCheck_releases_lock_witness :
  mu (self bare_daily) = false /\
  mu (self (final (fileCheck bare_daily))) = false.
Proof.
  split; [reflexivity|].
  exact (proj1 (proj2 (fileCheck_releases_lock bare_daily eq_refl))).
Defined.

(** ** The monitor in size mode *)

(** The calls of a rotation by size include no [Printf]. *)
Lemma size_split_calls_no_Printf (f : FileLogger) (w : World) (l : Logger)
    (msg : string) :
  ~ In (EvPrintf l msg)
       (EvSplit :: closing (logFile f)
          ++ EvStat (backup_path f (next_index f))
          :: removing w (backup_path f (next_index f))
          ++ [EvRename (logFilePath f) (backup_path f (next_index f));
              EvCreate (logFilePath f)]).
Proof.
  unfold closing, removing.
  destruct (logFile f); destruct (stat_ok w _); cbn; intuition discriminate.
Qed.

(** One check in size mode: it returns, having left the logger alone or
    rotated once, and it has written nothing through the line-writer. *)
Lemma fileCheck_size_run (s : State) :
  splitType (self s) = SplitType_Size -> mu (self s) = false ->
  exists s1,
    fileCheck_body s = Ok tt s1 /\ fileCheck s = Ok tt s1 /\
    mu (self s1) = false /\
    splitType (self s1) = SplitType_Size /\
    fileCount (self s1) = fileCount (self s) /\
    fileSize (self s1) = fileSize (self s) /\
    logFilePath (self s1) = logFilePath (self s) /\
    (suffix (self s1) = suffix (self s) \/
     1 < fileCount (self s) /\ suffix (self s1) = next_index (self s)) /\
    (forall l msg, In (EvPrintf l msg) (history (sys s1)) ->
                   In (EvPrintf l msg) (history (sys s))).
Proof.
  destruct s as [f w]. cbn [self sys]. intros Hs Hmu.
  pose proof (isMustSplit_size_run f w Hs) as Hpol.
  assert (Hwrap : forall s1, fileCheck_body {| self := f; sys := w |} = Ok tt s1 ->
                             fileCheck {| self := f; sys := w |} = Ok tt s1).
  { intros s1 H. unfold fileCheck, recovering. now rewrite H. }
  destruct (1 <? fileCount f) eqn:Hgt;
    [destruct (fileSize f <=? on_disk_size w (logFilePath f)) eqn:Hle|].
  - apply Z.ltb_lt in Hgt.
    destruct (split_size_run (with_mu true f)
                (record EvLock (record (EvStat (logFilePath f)) w)) Hs)
      as (h & w' & Hrun & Hh & _); [cbn; lia|].
    assert (Hbody : fileCheck_body {| self := f; sys := w |} =
                    Ok tt (unlocked
                      {| self := with_lg (Some (log_New h (prefix (with_mu true f))
                                                  logger_flags))
                                   (with_logFile h
                                      (with_suffix (next_index (with_mu true f))
                                         (with_mu true f)));
                         sys := w' |})).
    { rewrite (fileCheck_body_rotates _ _ Hpol Hmu).
      change (locked {| self := f; sys := record (EvStat (logFilePath f)) w |})
        with {| self := with_mu true f;
                sys := record EvLock (record (EvStat (logFilePath f)) w) |}.
      now rewrite Hrun. }
    eexists. split; [exact Hbody|]. split; [exact (Hwrap _ Hbody)|].
    cbn [unlocked self sys mu with_mu with_lg with_logFile with_suffix splitType
         fileCount fileSize suffix].
    split; [reflexivity|]. split; [exact Hs|]. split; [reflexivity|].
    split; [reflexivity|]. split; [reflexivity|].
    split; [right; split; [exact Hgt|reflexivity]|].
    intros l msg. hist. hist_in Hh. rewrite Hh.
    rewrite !in_app_iff. intros [[[[H|H]|H]|H]|H]; try exact H.
    + destruct H as [H|[]]; discriminate.
    + destruct H as [H|[]]; discriminate.
    + exfalso. revert H. apply size_split_calls_no_Printf.
    + destruct H as [H|[]]; discriminate.
  - assert (Hbody : fileCheck_body {| self := f; sys := w |} =
                    Ok tt {| self := f; sys := record (EvStat (logFilePath f)) w |}).
    { unfold fileCheck_body, bind. now rewrite Hpol. }
    eexists. split; [exact Hbody|]. split; [exact (Hwrap _ Hbody)|]. cbn [self sys].
    repeat (split; [first [assumption|reflexivity]|]).
    split; [now left|]. intros l msg. hist. rewrite in_app_iff.
    intros [H|[H|[]]]; [exact H|discriminate].
  - assert (Hbody : fileCheck_body {| self := f; sys := w |} =
                    Ok tt {| self := f; sys := w |}).
    { unfold fileCheck_body, bind. now rewrite Hpol. }
    eexists. split; [exact Hbody|]. split; [exact (Hwrap _ Hbody)|]. cbn [self sys].
    repeat (split; [first [assumption|reflexivity]|]).
    split; [now left|]. auto.
Qed.

(** Any number of checks in size mode. *)
Lemma size_ticking_run (n : nat) (s : State) :
  splitType (self s) = SplitType_Size -> mu (self s) = false ->
  exists s',
    ticking n s = Ok tt s' /\ mu (self s') = false /\
    splitType (self s') = SplitType_Size /\
    fileCount (self s') = fileCount (self s) /\
    fileSize (self s') = fileSize (self s) /\
    logFilePath (self s') = logFilePath (self s) /\
    (forall l msg, In (EvPrintf l msg) (history (sys s')) ->
                   In (EvPrintf l msg) (history (sys s))) /\
    (1 <= fileCount (self s) <= MaxInt64 ->
     0 <= suffix (self s) <= fileCount (self s) ->
     0 <= suffix (self s') <= fileCount (self s)).
Proof.
  revert s. induction n as [|n IH]; intros s Hs Hmu.
  - exists s. cbn. repeat (split; [first [assumption|reflexivity]|]). auto.
  - destruct (fileCheck_size_run s Hs Hmu)
      as (s1 & _ & Hrun & Hmu1 & Hs1 & Hc1 & Hz1 & Hp1 & Hx1 & Hq1).
    destruct (IH s1 Hs1 Hmu1) as (s2 & Hrun2 & Hmu2 & Hs2 & Hc2 & Hz2 & Hp2 & Hq2 & Hx2).
    exists s2.
    change (ticking (S n) s) with (bind fileCheck (fun _ => ticking n) s).
    rewrite (bind_Ok fileCheck (fun _ => ticking n) s s1 tt Hrun).
    split; [exact Hrun2|]. split; [exact Hmu2|]. split; [exact Hs2|].
    split; [congruence|]. split; [congruence|]. split; [congruence|].
    split; [auto|]. intros Hc Hx. rewrite Hc1 in Hx2.
    apply Hx2; [exact Hc|].
    destruct Hx1 as [->|[_ ->]]; [exact Hx|].
    destruct (next_index_in_range (self s) Hc Hx) as [_ Hr]. lia.
Qed.

(** X6: in size mode the monitor needs neither [recover] nor a
    line-writer.  With the mutex free, every check returns normally
    whatever the number of backups and the threshold (the modulo of [split]
    is never reached with a zero [fileCount]), leaves the mutex free, the
    mode, the limits and the active path as they were, and writes nothing
    through the line-writer; and a backup index within [0 .. fileCount]
    stays there. *)
Theorem size_monitor_needs_no_recover (n : nat) (s : State) :
  splitType (self s) = SplitType_Size -> mu (self s) = false ->
  exists s',
    fileMonitor n s = Ok tt s' /\ mu (self s') = false /\
    splitType (self s') = SplitType_Size /\
    fileCount (self s') = fileCount (self s) /\
    fileSize (self s') = fileSize (self s) /\
    logFilePath (self s') = logFilePath (self s) /\
    (forall l msg, In (EvPrintf l msg) (history (sys s')) ->
                   In (EvPrintf l msg) (history (sys s))) /\
    (1 <= fileCount (self s) <= MaxInt64 ->
     0 <= suffix (self s) <= fileCount (self s) ->
     0 <= suffix (self s') <= fileCount (self s)).
Proof.
  intros Hs Hmu.
  destruct (size_ticking_run n
              {| self := self s;
                 sys := record (EvTicker (wrap64 (DEFAULT_LOG_SCAN * Second))) (sys s) |}
              Hs Hmu) as (s' & Hrun & Hmu' & Hs' & Hc & Hz & Hp & Hq & Hx).
  cbn [self sys] in *.
  exists s'. split.
  { unfold fileMonitor. rewrite (bind_Ok (mark _) _ s _ tt eq_refl). exact Hrun. }
  repeat (split; [assumption|]). split; [|exact Hx].
  intros l msg H. apply Hq in H. hist_in H.
  apply in_app_or in H as [H|[H|[]]]; [exact H|discriminate].
Qed.

Lemma size_monitor_needs_no_recover_witness :
  splitType (self oversized) = SplitType_Size /\ mu (self oversized) = false /\
  exists s', fileMonitor 2 oversized = Ok tt s' /\ fileCount (self s') = 3.
Proof.
  split; [reflexivity|]. split; [reflexivity|].
  destruct (size_monitor_needs_no_recover 2 oversized eq_refl eq_refl)
    as (s' & Hrun & _ & _ & Hc & _).
  exists s'. split; [exact Hrun|exact Hc].
Defined.

(** ** Construction *)

(** X7: [NewSizeLogger] returns normally on every input: whatever the
    directory, the names, the number of backups (zero and negative ones
    included), the size and the unit, and whatever is on disk, it neither
    panics nor parks on the mutex.  The logger it returns has the mutex
    free and a line-writer set, and the monitor was started as the last
    step under the lock. *)
Theorem NewSizeLogger_always_returns (dir name pre : string) (count size : Z)
    (unit : UNIT) (w : World) :
  exists s evs,
    NewSizeLogger dir name pre count size unit w = Ok tt s /\
    mu (self s) = false /\ is_Some (lg (self s)) /\
    splitType (self s) = SplitType_Size /\ fileCount (self s) = count /\
    history (sys s) = history w ++ EvLock :: evs ++ [EvGo; EvUnlock].
Proof.
  destruct (NewSizeLogger_run dir name pre count size unit w)
    as (s & evs & Hrun & Hmu & Hlg & Hs & Hc & _ & Hh & _).
  exists s, evs. repeat (split; [assumption|]). exact Hh.
Qed.

(** X8: [NewDefaultLogger] builds a size-mode logger with ten backups and
    a threshold of 50 MB, that is 52428800 bytes, and no prefix; it rotates
    during construction exactly when the active file already holds that
    many bytes. *)
Theorem NewDefaultLogger_limits (dir name : string) (w : World) :
  exists s evs,
    NewDefaultLogger dir name w = Ok tt s /\
    splitType (self s) = SplitType_Size /\
    fileCount (self s) = 10 /\ fileSize (self s) = 52428800 /\
    history (sys s) = history w ++ EvLock :: evs ++ [EvGo; EvUnlock] /\
    (In EvSplit evs <->
     52428800 <= on_disk_size w (Util.joinFilePath dir name)).
Proof.
  destruct (NewSizeLogger_run dir name "" 10 50 MB w)
    as (s & evs & Hrun & _ & _ & Hs & Hc & Hz & Hh & Hin).
  exists s, evs. split; [exact Hrun|]. split; [exact Hs|]. split; [exact Hc|].
  assert (Hmb : wrap64 (50 * MB) = 52428800) by (vm_compute; reflexivity).
  rewrite Hmb in Hz, Hin. split; [exact Hz|]. split; [exact Hh|].
  rewrite Hin. split; [tauto|]. intros H. split; [reflexivity|exact H].
Qed.

(** *** Construction without rotation *)

Lemma prepared_same (w w2 : World) (dir : string) (W : World) :
  dirs w2 = dirs w -> names w2 = names w -> inodes w2 = inodes w ->
  opened w2 = opened w -> next_ino w2 = next_ino w -> next_fd w2 = next_fd w ->
  prepared w2 dir W -> prepared w dir W.
Proof.
  unfold prepared, mkdir_ok, stat_ok, parent_ok, is_file, is_dir.
  intros -> -> -> -> -> ->. auto.
Qed.

(** The branch that opens the active file, down to its [os.OpenFile]. *)
Lemma open_active_world (f0 : FileLogger) (p : string) (f : FileLogger) (w : World) :
  exists W,
    open_active f0 p {| self := f; sys := w |} =
    Ok tt {| self := with_lg (Some (log_New (handle_for W p) (prefix f0) logger_flags))
                       (with_logFile (handle_for W p) f);
             sys := record (EvOpenFile p) (opening false p W) |} /\
    prepared w (fileDir f0) W.
Proof.
  unfold open_active. unfold_calls. cbn.
  destruct (stat_ok w (fileDir f0)) eqn:Hstat; cbn;
    eexists; (split; [reflexivity|]); unfold prepared, mkdir_ok; cbn;
    repeat change (stat_ok (record ?e ?w0) ?q) with (stat_ok w0 q);
    repeat change (parent_ok (record ?e ?w0) ?q) with (parent_ok w0 q);
    rewrite Hstat; cbn; repeat split; reflexivity.
Qed.

(** What a constructor does after a policy that answers false. *)
Lemma open_tail_run (f0 f1 : FileLogger) (w1 w2 : World) :
  isMustSplit {| self := f1; sys := w1 |} = Ok false {| self := f1; sys := w2 |} ->
  exists W,
    (must <- isMustSplit ;;
     (if negb must then open_active f0 (logFilePath f0) else split) ;;
     go_fileMonitor) {| self := f1; sys := w1 |} =
    Ok tt {| self := with_lg (Some (log_New (handle_for W (logFilePath f0))
                                     (prefix f0) logger_flags))
                       (with_logFile (handle_for W (logFilePath f0)) f1);
             sys := record EvGo
                      (record (EvOpenFile (logFilePath f0))
                         (opening false (logFilePath f0) W)) |} /\
    prepared w2 (fileDir f0) W.
Proof.
  intros Hpol.
  destruct (open_active_world f0 (logFilePath f0) f1 w2) as (W & Hrun & Hprep).
  exists W. split; [|exact Hprep].
  rewrite (bind_Ok _ _ _ _ _ Hpol). cbn [negb].
  rewrite (bind_Ok _ _ _ _ _ Hrun). reflexivity.
Qed.

(** [initLoggerBySize] when the policy does not ask for a rotation. *)
Lemma initLoggerBySize_opens (f : FileLogger) (w : World) :
  splitType f = SplitType_Size -> mu f = false -> size_due f w = false ->
  exists W f1,
    initLoggerBySize {| self := f; sys := w |} =
    Ok tt {| self := opened_on W (logFilePath f) (prefix f) f1;
             sys := opened_in W (logFilePath f) |} /\
    (f1 = with_mu true f \/ f1 = with_suffix 1 (with_mu true f)) /\
    prepared w (fileDir f) W.
Proof.
  intros Hs Hmu Hdue.
  pose proof (scan_backups_run (logFilePath (with_mu true f)) (with_mu true f)
                (record EvLock w)) as Hscan.
  assert (Hgoal : forall f1 w1,
    scan_backups (logFilePath (with_mu true f))
      {| self := with_mu true f; sys := record EvLock w |}
      = Ok tt {| self := f1; sys := w1 |} ->
    (f1 = with_mu true f \/ f1 = with_suffix 1 (with_mu true f)) ->
    dirs w1 = dirs w -> names w1 = names w -> inodes w1 = inodes w ->
    opened w1 = opened w -> next_ino w1 = next_ino w -> next_fd w1 = next_fd w ->
    exists W f2,
      initLoggerBySize {| self := f; sys := w |} =
      Ok tt {| self := opened_on W (logFilePath f) (prefix f) f2;
               sys := opened_in W (logFilePath f) |} /\
      (f2 = with_mu true f \/ f2 = with_suffix 1 (with_mu true f)) /\
      prepared w (fileDir f) W).
  { intros f1 w1 Hsc Hf1 Hd Hn Hi Ho Hni Hnf.
    assert (Hcfg : splitType f1 = SplitType_Size /\ fileCount f1 = fileCount f /\
                   fileSize f1 = fileSize f /\ logFilePath f1 = logFilePath f).
    { destruct Hf1 as [-> | ->]; cbn; auto. }
    destruct Hcfg as (Hs1 & Hc1 & Hz1 & Hp1).
    assert (Hdue1 : size_due f1 w1 = false).
    { rewrite (size_due_same f f1 w w1 Hc1 Hz1 Hp1 Hn Hi). exact Hdue. }
    assert (Hpol : exists w2,
      isMustSplit {| self := f1; sys := w1 |} = Ok false {| self := f1; sys := w2 |} /\
      dirs w2 = dirs w1 /\ names w2 = names w1 /\ inodes w2 = inodes w1 /\
      opened w2 = opened w1 /\ next_ino w2 = next_ino w1 /\ next_fd w2 = next_fd w1).
    { pose proof (isMustSplit_size_run f1 w1 Hs1) as Hpol.
      unfold size_due in Hdue1.
      destruct (1 <? fileCount f1); cbn [andb] in Hdue1.
      - rewrite Hdue1 in Hpol. eexists. split; [exact Hpol|]. cbn. auto 10.
      - eexists. split; [exact Hpol|]. auto 10. }
    destruct Hpol as (w2 & Hpol & Hd2 & Hn2 & Hi2 & Ho2 & Hni2 & Hnf2).
    destruct (open_tail_run (with_mu true f) f1 w1 w2 Hpol) as (W & Htail & Hprep).
    exists W, f1. split; [|split; [exact Hf1|]].
    - unfold initLoggerBySize.
      etransitivity; [apply bind_Ok, mu_Lock_run, Hmu|].
      erewrite defer_unlock_Ok; cycle 1.
      { rewrite (bind_Ok get_self _ _ _ _ (get_self_run _)). cbn [self locked].
        cbn zeta. rewrite (bind_Ok _ _ _ _ _ Hsc). exact Htail. }
      reflexivity.
    - apply (prepared_same w w2); [congruence..|exact Hprep]. }
  destruct (1 <=? fileCount (with_mu true f)).
  - eapply Hgoal; [exact Hscan| |reflexivity..].
    destruct (stat_ok _ _); auto.
  - eapply Hgoal; [exact Hscan|auto|reflexivity..].
Qed.

(** [initLoggerByDaily] when the day does not change between its two
    readings of the clock. *)
Lemma initLoggerByDaily_opens (f : FileLogger) (w : World) :
  splitType f = SplitType_Daily -> mu f = false ->
  dayOf (clock w (S (reads w))) <= dayOf (now_of w) ->
  exists W,
    initLoggerByDaily {| self := f; sys := w |} =
    Ok tt {| self := opened_on W (logFilePath f) (prefix f)
                       (with_mu true (with_date (Some (truncateToDay (now_of w))) f));
             sys := opened_in W (logFilePath f) |} /\
    prepared w (fileDir f) W.
Proof.
  intros Hs Hmu Hday.
  set (f1 := with_mu true (with_date (Some (truncateToDay (now_of w))) f)).
  set (w1 := record EvLock (record (EvNow (now_of w)) (advance w))).
  pose proof (isMustSplit_daily_run f1 w1 (truncateToDay (now_of w)) Hs eq_refl)
    as Hpol.
  change (now_of w1) with (clock w (S (reads w))) in Hpol.
  assert (Hnot : After (truncateToDay (clock w (S (reads w))))
                   (truncateToDay (now_of w)) = false).
  { unfold After, truncateToDay. apply Z.ltb_ge. lia. }
  rewrite Hnot in Hpol.
  destruct (open_tail_run f1 f1 w1 _ Hpol) as (W & Htail & Hprep).
  exists W. split.
  - unfold initLoggerByDaily.
    etransitivity; [apply bind_Ok; reflexivity|]. cbn zeta.
    etransitivity; [apply bind_Ok; reflexivity|].
    etransitivity; [apply bind_Ok, mu_Lock_run, Hmu|].
    erewrite defer_unlock_Ok; cycle 1.
    { rewrite (bind_Ok get_self _ _ _ _ (get_self_run _)). cbn zeta.
      exact Htail. }
    reflexivity.
  - apply (prepared_same w _ _ _ eq_refl eq_refl eq_refl eq_refl eq_refl eq_refl Hprep).
Qed.

(** Opening, for appending, a file that is there: the handle is on that
    file, and nothing on disk changes. *)
Lemma opening_existing (p : string) (w : World) (i : nat) :
  names w !! p = Some i ->
  handle_for w p = Some (mkFile (next_fd w)) /\
  names (opening false p w) = names w /\
  inodes (opening false p w) = inodes w /\
  dirs (opening false p w) = dirs w /\
  opened (opening false p w) !! next_fd w = Some i.
Proof.
  intros H. unfold handle_for, opening, inode_for, is_file. cbn. rewrite H. cbn.
  rewrite bool_decide_eq_true_2 by eauto. cbn.
  repeat split; [apply insert_id; exact H|lookups; reflexivity].
Qed.

(** Opening a path touches no other entry. *)
Lemma opening_other_names (cut : bool) (p q : string) (w : World) :
  q <> p -> names (opening cut p w) !! q = names w !! q.
Proof.
  intros Hq. unfold opening. cbn. destruct (inode_for w p); lookups; reflexivity.
Qed.

(** A call that fails to open leaves no handle and changes nothing. *)
Lemma opening_refused (cut : bool) (p : string) (w : World) :
  names w !! p = None -> open_ok w p = false ->
  handle_for w p = None /\ names (opening cut p w) = names w /\
  inodes (opening cut p w) = inodes w /\ dirs (opening cut p w) = dirs w /\
  opened (opening cut p w) = opened w.
Proof.
  intros Hfree Hno. unfold handle_for, opening, inode_for. cbn.
  rewrite Hfree, Hno. auto.
Qed.

Lemma dirname_aux_join (dir name : string) :
  dirname_aux name = None -> dirname_aux (Util.joinFilePath dir name) = Some dir.
Proof.
  intros H. unfold Util.joinFilePath. induction dir as [|c r IH].
  - change ("" +:+ "/" +:+ name) with (String "/"%char name).
    cbn [dirname_aux]. rewrite H. reflexivity.
  - change (String c r +:+ "/" +:+ name) with (String c (r +:+ "/" +:+ name)).
    cbn [dirname_aux]. rewrite IH. reflexivity.
Qed.

Lemma joinFilePath_differs (dir name : string) : Util.joinFilePath dir name <> dir.
Proof.
  unfold Util.joinFilePath. intros H. rewrite <- (append_empty_r dir) in H at 2.
  apply String.app_inj in H. discriminate H.
Qed.

(** X9: when the active file is already there and the policy does not ask
    for a rotation, [NewSizeLogger] opens it for appending: no entry and no
    length on disk changes, the logger holds a new handle on that very
    file, the line-writer is built on this handle with the prefix given,
    and a record written through it lengthens the file by its own size. *)
Theorem NewSizeLogger_keeps_active_file (dir name pre : string) (count size : Z)
    (unit : UNIT) (w : World) (i : nat) :
  names w !! Util.joinFilePath dir name = Some i ->
  count <= 1 \/ on_disk_size w (Util.joinFilePath dir name) < wrap64 (size * unit) ->
  exists s l,
    NewSizeLogger dir name pre count size unit w = Ok tt s /\
    names (sys s) = names w /\ inodes (sys s) = inodes w /\
    logFile (self s) = Some (mkFile (next_fd w)) /\
    opened (sys s) !! next_fd w = Some i /\
    lg (self s) = Some l /\ out l = Some (mkFile (next_fd w)) /\ lprefix l = pre /\
    forall msg,
      on_disk_size (written l msg (sys s)) (Util.joinFilePath dir name)
      = on_disk_size w (Util.joinFilePath dir name) + record_size l msg.
Proof.
  intros Hact Hidle.
  set (f := mkFileLogger SplitType_Size false dir name 0 count
              (wrap64 (size * unit)) pre None None None).
  assert (Hdue : size_due f w = false).
  { unfold size_due. change (fileCount f) with count.
    change (fileSize f) with (wrap64 (size * unit)).
    change (logFilePath f) with (Util.joinFilePath dir name).
    apply andb_false_iff. destruct Hidle as [H|H];
      [left; apply Z.ltb_ge; exact H|right; apply Z.leb_gt; exact H]. }
  destruct (initLoggerBySize_opens f w eq_refl eq_refl Hdue)
    as (W & f1 & Hrun & Hf1 & _ & Hn & Hi & Ho & Hni & Hnf).
  change (logFilePath f) with (Util.joinFilePath dir name) in Hrun.
  change (prefix f) with pre in Hrun.
  set (p := Util.joinFilePath dir name) in *.
  assert (HactW : names W !! p = Some i) by (rewrite Hn; exact Hact).
  destruct (opening_existing p W i HactW) as (Hh & Hn' & Hi' & _ & Ho').
  assert (Hsys : names (opened_in W p) = names w /\ inodes (opened_in W p) = inodes w /\
                 opened (opened_in W p) !! next_fd w = Some i).
  { unfold opened_in.
    change (names (record ?e1 (record ?e2 (record ?e3 ?w0)))) with (names w0).
    change (inodes (record ?e1 (record ?e2 (record ?e3 ?w0)))) with (inodes w0).
    change (opened (record ?e1 (record ?e2 (record ?e3 ?w0)))) with (opened w0).
    rewrite Hn', Hi', <- Hnf. auto. }
  destruct Hsys as (Hsn & Hsi & Hso).
  eexists _, (log_New (Some (mkFile (next_fd w))) pre logger_flags).
  split; [exact Hrun|]. cbn [self sys].
  split; [exact Hsn|]. split; [exact Hsi|].
  split; [unfold opened_on; cbn; rewrite Hh, Hnf; reflexivity|].
  split; [exact Hso|].
  split; [unfold opened_on; cbn; rewrite Hh, Hnf; reflexivity|].
  split; [reflexivity|]. split; [reflexivity|]. intros msg.
  destruct (written_grows (log_New (Some (mkFile (next_fd w))) pre logger_flags)
              msg (opened_in W p) (mkFile (next_fd w)) i eq_refl Hso) as [Hg Hgn].
  unfold on_disk_size, stat_size. rewrite Hgn, Hsn, Hact, Hg, Hsi. reflexivity.
Qed.

Lemma NewSizeLogger_keeps_active_file_witness :
  names sample_world !! Util.joinFilePath "logs" "app.log" = Some 0%nat /\
  (3 <= 1 \/ on_disk_size sample_world (Util.joinFilePath "logs" "app.log")
             < wrap64 (8 * KB)) /\
  exists s, NewSizeLogger "logs" "app.log" "" 3 8 KB sample_world = Ok tt s /\
            inodes (sys s) = inodes sample_world.
Proof.
  assert (H1 : names sample_world !! Util.joinFilePath "logs" "app.log" = Some 0%nat)
    by (vm_compute; reflexivity).
  assert (H2 : 3 <= 1 \/ on_disk_size sample_world (Util.joinFilePath "logs" "app.log")
                         < wrap64 (8 * KB)) by (right; vm_compute; reflexivity).
  split; [exact H1|]. split; [exact H2|].
  destruct (NewSizeLogger_keeps_active_file "logs" "app.log" "" 3 8 KB sample_world
              0%nat H1 H2) as (s & l & Hrun & _ & Hi & _).
  exists s. split; [exact Hrun|exact Hi].
Defined.

(** X10: when the day does not change between the two readings of the
    clock that [NewDailyLogger] takes, it returns normally without
    rotating: the stored date is the midnight that opens the day of the
    first reading, the mutex is free, a line-writer is set, no entry other
    than the active path changes, and an active file that is already there
    is opened for appending with its entry and its length untouched. *)
Theorem NewDailyLogger_same_day (dir name pre : string) (w : World) :
  dayOf (clock w (S (reads w))) <= dayOf (now_of w) ->
  exists s,
    NewDailyLogger dir name pre w = Ok tt s /\
    mu (self s) = false /\ is_Some (lg (self s)) /\
    splitType (self s) = SplitType_Daily /\
    date (self s) = Some (86400 * dayOf (now_of w)) /\
    (forall q, q <> Util.joinFilePath dir name ->
               names (sys s) !! q = names w !! q) /\
    (forall i, names w !! Util.joinFilePath dir name = Some i ->
               names (sys s) = names w /\ inodes (sys s) = inodes w /\
               logFile (self s) = Some (mkFile (next_fd w)) /\
               opened (sys s) !! next_fd w = Some i).
Proof.
  intros Hday.
  set (f := mkFileLogger SplitType_Daily false dir name 0 0 0 pre None None None).
  destruct (initLoggerByDaily_opens f w eq_refl eq_refl Hday)
    as (W & Hrun & _ & Hn & Hi & Ho & Hni & Hnf).
  change (logFilePath f) with (Util.joinFilePath dir name) in Hrun.
  change (prefix f) with pre in Hrun.
  set (p := Util.joinFilePath dir name) in *.
  eexists. split; [exact Hrun|]. cbn [self sys].
  split; [reflexivity|]. split; [unfold opened_on; cbn; eauto|].
  split; [reflexivity|]. split; [reflexivity|]. split.
  - intros q Hq. unfold opened_in.
    change (names (record ?e1 (record ?e2 (record ?e3 ?w0)))) with (names w0).
    rewrite (opening_other_names false p q W Hq). now rewrite Hn.
  - intros i Hact.
    assert (HactW : names W !! p = Some i) by (rewrite Hn; exact Hact).
    destruct (opening_existing p W i HactW) as (Hh & Hn' & Hi' & _ & Ho').
    unfold opened_in.
    change (names (record ?e1 (record ?e2 (record ?e3 ?w0)))) with (names w0).
    change (inodes (record ?e1 (record ?e2 (record ?e3 ?w0)))) with (inodes w0).
    change (opened (record ?e1 (record ?e2 (record ?e3 ?w0)))) with (opened w0).
    rewrite Hn', Hi', <- Hnf. split; [exact Hn|]. split; [exact Hi|].
    split; [unfold opened_on; cbn; rewrite Hh; reflexivity|exact Ho'].
Qed.

Lemma NewDailyLogger_same_day_witness :
  dayOf (clock sample_world (S (reads sample_world))) <= dayOf (now_of sample_world) /\
  exists s, NewDailyLogger "logs" "app.log" "" sample_world = Ok tt s /\
            date (self s) = Some 1699920000.
Proof.
  assert (H : dayOf (clock sample_world (S (reads sample_world)))
              <= dayOf (now_of sample_world)) by (vm_compute; discriminate).
  split; [exact H|].
  destruct (NewDailyLogger_same_day "logs" "app.log" "" sample_world H)
    as (s & Hrun & _ & _ & _ & Hd & _).
  exists s. split; [exact Hrun|exact Hd].
Defined.

(** X11: [NewSizeLogger] makes the directory when it is missing and its
    parent is there.  With no rotation asked for and nothing at the active
    path, the directory exists afterwards, the active path names a new
    empty file, and the logger holds a handle open on that file. *)
Theorem NewSizeLogger_makes_directory (dir name pre : string) (count size : Z)
    (unit : UNIT) (w : World) :
  stat_ok w dir = false -> parent_ok w dir = true ->
  dirname_aux name = None ->
  stat_ok w (Util.joinFilePath dir name) = false ->
  count <= 1 \/ 0 < wrap64 (size * unit) ->
  exists s,
    NewSizeLogger dir name pre count size unit w = Ok tt s /\
    dirs (sys s) = {[dir]} ∪ dirs w /\
    names (sys s) !! Util.joinFilePath dir name = Some (next_ino w) /\
    on_disk_size (sys s) (Util.joinFilePath dir name) = 0 /\
    logFile (self s) = Some (mkFile (next_fd w)) /\
    opened (sys s) !! next_fd w = Some (next_ino w).
Proof.
  intros Hnodir Hparent Hname Hnofile Hidle.
  set (p := Util.joinFilePath dir name) in *.
  assert (Hfree : names w !! p = None).
  { unfold stat_ok, is_file, is_dir in Hnofile. now apply not_stat_no_entry in Hnofile. }
  assert (Hnd : p ∉ dirs w).
  { unfold stat_ok, is_file, is_dir in Hnofile.
    apply orb_false_elim in Hnofile as [_ H]. now apply bool_decide_eq_false in H. }
  set (f := mkFileLogger SplitType_Size false dir name 0 count
              (wrap64 (size * unit)) pre None None None).
  assert (Hdue : size_due f w = false).
  { unfold size_due. change (fileCount f) with count.
    change (fileSize f) with (wrap64 (size * unit)).
    change (logFilePath f) with p.
    unfold on_disk_size, stat_size. rewrite Hfree. cbn [default].
    apply andb_false_iff. destruct Hidle as [H|H];
      [left; apply Z.ltb_ge; exact H|right; apply Z.leb_gt; exact H]. }
  destruct (initLoggerBySize_opens f w eq_refl eq_refl Hdue)
    as (W & f1 & Hrun & Hf1 & Hd & Hn & Hi & Ho & Hni & Hnf).
  change (logFilePath f) with p in Hrun. change (prefix f) with pre in Hrun.
  change (fileDir f) with dir in Hd.
  assert (Hmk : mkdir_ok w dir = true).
  { unfold mkdir_ok. now rewrite Hnodir, Hparent. }
  rewrite Hmk in Hd.
  assert (HfreeW : names W !! p = None) by (rewrite Hn; exact Hfree).
  assert (Hok : open_ok W p = true).
  { assert (Hdn : dirname p = dir).
    { unfold dirname, p. now rewrite (dirname_aux_join dir name Hname). }
    unfold open_ok, parent_ok, is_file, is_dir.
    rewrite HfreeW, Hd, Hdn.
    rewrite (bool_decide_eq_false_2 (p ∈ {[dir]} ∪ dirs w)).
    - rewrite (bool_decide_eq_true_2 (dir ∈ {[dir]} ∪ dirs w))
        by (apply elem_of_union_l, elem_of_singleton; reflexivity).
      now rewrite orb_true_r, orb_true_r.
    - intros [H|H]%elem_of_union; [|exact (Hnd H)].
      apply elem_of_singleton in H. exact (joinFilePath_differs dir name H). }
  destruct (opening_new false p W HfreeW Hok) as (Hh & Hn' & Ho' & Hi').
  destruct (opening_absent_frame false p W HfreeW) as (Hd' & _).
  pose proof (opening_absent_size false p W HfreeW) as Hsize.
  eexists. split; [exact Hrun|]. cbn [self sys]. unfold opened_in.
  change (dirs (record ?e1 (record ?e2 (record ?e3 ?w0)))) with (dirs w0).
  change (names (record ?e1 (record ?e2 (record ?e3 ?w0)))) with (names w0).
  change (opened (record ?e1 (record ?e2 (record ?e3 ?w0)))) with (opened w0).
  change (on_disk_size (record ?e1 (record ?e2 (record ?e3 ?w0))) ?q)
    with (on_disk_size w0 q).
  rewrite <- Hni, <- Hnf.
  split; [rewrite Hd'; exact Hd|]. split; [exact Hn'|]. split; [exact Hsize|].
  split; [unfold opened_on; cbn; rewrite Hh; reflexivity|exact Ho'].
Qed.

Lemma NewSizeLogger_makes_directory_witness :
  stat_ok bare_world "logs" = false /\ parent_ok bare_world "logs" = true /\
  dirname_aux "app.log" = None /\
  stat_ok bare_world (Util.joinFilePath "logs" "app.log") = false /\
  (10 <= 1 \/ 0 < wrap64 (50 * MB)) /\
  exists s, NewSizeLogger "logs" "app.log" "" 10 50 MB bare_world = Ok tt s /\
            names (sys s) !! Util.joinFilePath "logs" "app.log" = Some 0%nat.
Proof.
  assert (H1 : stat_ok bare_world "logs" = false) by (vm_compute; reflexivity).
  assert (H2 : parent_ok bare_world "logs" = true) by (vm_compute; reflexivity).
  assert (H3 : dirname_aux "app.log" = None) by (vm_compute; reflexivity).
  assert (H4 : stat_ok bare_world (Util.joinFilePath "logs" "app.log") = false)
    by (vm_compute; reflexivity).
  assert (H5 : 10 <= 1 \/ 0 < wrap64 (50 * MB)) by (right; vm_compute; reflexivity).
  repeat (split; [assumption|]).
  destruct (NewSizeLogger_makes_directory "logs" "app.log" "" 10 50 MB bare_world
              H1 H2 H3 H4 H5) as (s & Hrun & _ & Hn & _).
  exists s. split; [exact Hrun|exact Hn].
Defined.

(** X12: the errors of [os.Mkdir] and [os.OpenFile] are dropped.  When the
    directory is missing and its parent is missing too, [NewDailyLogger]
    (on a day that does not change under it) still returns normally, but
    nothing was created: the directories and entries are as before, the
    logger holds no file, and its line-writer, built on the nil handle,
    changes no file whatever it is given to print. *)
Theorem NewDailyLogger_missing_parent (dir name pre : string) (w : World) :
  dayOf (clock w (S (reads w))) <= dayOf (now_of w) ->
  stat_ok w dir = false -> parent_ok w dir = false ->
  dirname_aux name = None ->
  names w !! Util.joinFilePath dir name = None ->
  exists s,
    NewDailyLogger dir name pre w = Ok tt s /\
    dirs (sys s) = dirs w /\ names (sys s) = names w /\
    inodes (sys s) = inodes w /\
    logFile (self s) = None /\
    lg (self s) = Some (log_New None pre logger_flags) /\
    forall msg,
      inodes (written (log_New None pre logger_flags) msg (sys s)) = inodes w.
Proof.
  intros Hday Hnodir Hparent Hname Hfree.
  set (f := mkFileLogger SplitType_Daily false dir name 0 0 0 pre None None None).
  destruct (initLoggerByDaily_opens f w eq_refl eq_refl Hday)
    as (W & Hrun & Hd & Hn & Hi & Ho & Hni & Hnf).
  change (logFilePath f) with (Util.joinFilePath dir name) in Hrun.
  change (prefix f) with pre in Hrun. change (fileDir f) with dir in Hd.
  set (p := Util.joinFilePath dir name) in *.
  assert (Hmk : mkdir_ok w dir = false).
  { unfold mkdir_ok. rewrite Hparent. apply andb_false_r. }
  rewrite Hmk in Hd.
  assert (Hnd : is_dir w dir = false).
  { unfold stat_ok in Hnodir. now apply orb_false_elim in Hnodir as [_ H]. }
  assert (Hdir : dir <> EmptyString).
  { intros ->. unfold parent_ok in Hparent. cbn in Hparent. discriminate. }
  assert (HfreeW : names W !! p = None) by (rewrite Hn; exact Hfree).
  assert (Hok : open_ok W p = false).
  { assert (Hdn : dirname p = dir).
    { unfold dirname, p. now rewrite (dirname_aux_join dir name Hname). }
    unfold open_ok, parent_ok, is_file. fold (is_dir w dir) in Hnd.
    rewrite HfreeW, Hdn. unfold is_dir in *. rewrite Hd, Hnd.
    rewrite (bool_decide_eq_false_2 (dir = EmptyString)) by exact Hdir.
    rewrite (bool_decide_eq_false_2 (is_Some None)) by apply is_Some_None.
    cbn. apply andb_false_r. }
  destruct (opening_refused false p W HfreeW Hok) as (Hh & Hn' & Hi' & Hd' & _).
  eexists. split; [exact Hrun|]. cbn [self sys]. unfold opened_in.
  change (dirs (record ?e1 (record ?e2 (record ?e3 ?w0)))) with (dirs w0).
  change (names (record ?e1 (record ?e2 (record ?e3 ?w0)))) with (names w0).
  change (inodes (record ?e1 (record ?e2 (record ?e3 ?w0)))) with (inodes w0).
  split; [congruence|]. split; [congruence|]. split; [congruence|].
  split; [unfold opened_on; cbn; rewrite Hh; reflexivity|].
  split; [unfold opened_on; cbn; rewrite Hh; reflexivity|].
  intros msg. change (inodes (opening false p W) = inodes w). congruence.
Qed.

Lemma NewDailyLogger_missing_parent_witness :
  dayOf (clock bare_world (S (reads bare_world))) <= dayOf (now_of bare_world) /\
  stat_ok bare_world nested_dir = false /\ parent_ok bare_world nested_dir = false /\
  dirname_aux "app.log" = None /\
  names bare_world !! Util.joinFilePath nested_dir "app.log" = None /\
  exists s, NewDailyLogger nested_dir "app.log" "" bare_world = Ok tt s /\
            logFile (self s) = None.
Proof.
  assert (H0 : dayOf (clock bare_world (S (reads bare_world)))
               <= dayOf (now_of bare_world)) by (vm_compute; discriminate).
  assert (H1 : stat_ok bare_world nested_dir = false) by (vm_compute; reflexivity).
  assert (H2 : parent_ok bare_world nested_dir = false) by (vm_compute; reflexivity).
  assert (H3 : dirname_aux "app.log" = None) by (vm_compute; reflexivity).
  assert (H4 : names bare_world !! Util.joinFilePath nested_dir "app.log" = None)
    by (vm_compute; reflexivity).
  repeat (split; [assumption|]).
  destruct (NewDailyLogger_missing_parent nested_dir "app.log" "" bare_world
              H0 H1 H2 H3 H4) as (s & Hrun & _ & _ & _ & Hl & _).
  exists s. split; [exact Hrun|exact Hl].
Defined.

(** *** Construction across midnight *)

(** A daily rotation that is due, on a logger that holds neither a file
    nor a line-writer, with no active file to rename: the report of the
    failed rename follows the nil line-writer. *)
Lemma split_daily_panics (f : FileLogger) (w : World) (d : Time) :
  splitType f = SplitType_Daily -> date f = Some d ->
  logFile f = None -> lg f = None ->
  stat_ok w (daily_backup f d) = false ->
  After (truncateToDay (now_of w)) d = true ->
  names w !! logFilePath f = None ->
  exists W,
    split {| self := f; sys := w |} = Panic nil_dereference {| self := f; sys := W |} /\
    same_files w W /\
    history W =
      history w ++ [EvSplit; EvStat (daily_backup f d); EvNow (now_of w);
                    EvRename (logFilePath f) (daily_backup f d)].
Proof.
  intros Hs Hd Hfile Hlg Hstat Hdue Hact. destruct w as [dd n i o ni nf c r t].
  unfold split, daily_backup in *.
  unfold_calls. cbn. rewrite Hs, Hd. cbn.
  change (stat_ok (record EvSplit ?w) ?p) with (stat_ok w p). rewrite Hstat. cbn.
  rewrite (isMustSplit_daily_run f _ d Hs Hd).
  change (now_of (record ?e (record ?e' ?w))) with (now_of w). rewrite Hdue. cbn.
  unfold rename_error, renamed, now_of, history, same_files. cbn in *.
  rewrite Hfile, Hlg. cbn. rewrite Hact. cbn.
  eexists. split; [reflexivity|]. cbn. rewrite ?Hact.
  repeat split. chain. reflexivity.
Qed.

(** X13: [NewDailyLogger] can panic.  When midnight falls between its first
    reading of the clock and the next ones, it enters [split] on a logger
    that has no line-writer yet; if the active file is missing (and no
    backup carries the date of the first reading) the rename fails and the
    report of that failure follows the nil line-writer.  The constructor
    ends with that panic: the mutex has been released on the way out, but
    no file was created and the monitor was never started. *)
Theorem NewDailyLogger_midnight_panic (dir name pre : string) (w : World) :
  dayOf (now_of w) < dayOf (clock w (S (reads w))) ->
  dayOf (now_of w) < dayOf (clock w (S (S (reads w)))) ->
  stat_ok w (Util.joinFilePath dir name +:+ "."
               +:+ Format (truncateToDay (now_of w))) = false ->
  names w !! Util.joinFilePath dir name = None ->
  exists s,
    NewDailyLogger dir name pre w = Panic nil_dereference s /\
    mu (self s) = false /\ lg (self s) = None /\ logFile (self s) = None /\
    same_files w (sys s) /\
    history (sys s) =
      history w
        ++ [EvNow (now_of w); EvLock; EvNow (clock w (S (reads w))); EvSplit;
            EvStat (Util.joinFilePath dir name +:+ "."
                      +:+ Format (truncateToDay (now_of w)));
            EvNow (clock w (S (S (reads w))));
            EvRename (Util.joinFilePath dir name)
              (Util.joinFilePath dir name +:+ "."
                 +:+ Format (truncateToDay (now_of w)));
            EvUnlock].
Proof.
  intros Hday1 Hday2 Hstat Hact.
  set (f := mkFileLogger SplitType_Daily false dir name 0 0 0 pre None None None).
  set (t0 := truncateToDay (now_of w)) in *.
  set (f1 := with_mu true (with_date (Some t0) f)).
  set (w1 := record EvLock (record (EvNow (now_of w)) (advance w))).
  pose proof (isMustSplit_daily_run f1 w1 t0 eq_refl eq_refl) as Hpol.
  change (now_of w1) with (clock w (S (reads w))) in Hpol.
  assert (Hdue1 : After (truncateToDay (clock w (S (reads w)))) t0 = true).
  { unfold t0, After, truncateToDay. apply Z.ltb_lt. lia. }
  rewrite Hdue1 in Hpol.
  set (w2 := record (EvNow (clock w (S (reads w)))) (advance w1)) in *.
  assert (Hdue2 : After (truncateToDay (now_of w2)) t0 = true).
  { change (now_of w2) with (clock w (S (S (reads w)))).
    unfold t0, After, truncateToDay. apply Z.ltb_lt. lia. }
  destruct (split_daily_panics f1 w2 t0 eq_refl eq_refl eq_refl eq_refl Hstat Hdue2 Hact)
    as (W & Hsplit & Hsame & Hh).
  exists (unlocked {| self := f1; sys := W |}). split.
  - change (NewDailyLogger dir name pre w)
      with (initLoggerByDaily {| self := f; sys := w |}).
    unfold initLoggerByDaily.
    etransitivity; [apply bind_Ok; reflexivity|]. cbn zeta.
    etransitivity; [apply bind_Ok; reflexivity|].
    etransitivity; [apply bind_Ok, mu_Lock_run; reflexivity|].
    apply defer_unlock_Panic.
    rewrite (bind_Ok get_self _ _ _ _ (get_self_run _)). cbn zeta.
    rewrite (bind_Ok _ _ _ _ _ Hpol). cbn [negb].
    unfold bind at 1. rewrite Hsplit. reflexivity.
  - cbn [unlocked self sys]. split; [reflexivity|]. split; [reflexivity|].
    split; [reflexivity|]. split; [exact Hsame|].
    hist. rewrite Hh.
    change (now_of w2) with (clock w (S (S (reads w)))).
    change (daily_backup f1 t0)
      with (Util.joinFilePath dir name +:+ "." +:+ Format t0).
    change (logFilePath f1) with (Util.joinFilePath dir name).
    assert (Hh2 : history w2 = history w ++ [EvNow (now_of w); EvLock;
                                              EvNow (clock w (S (reads w)))]).
    { subst w2 w1. hist. lists. reflexivity. }
    rewrite Hh2. lists. reflexivity.
Qed.

Lemma NewDailyLogger_midnight_panic_witness :
  dayOf (now_of midnight_world) < dayOf (clock midnight_world (S (reads midnight_world))) /\
  dayOf (now_of midnight_world)
    < dayOf (clock midnight_world (S (S (reads midnight_world)))) /\
  stat_ok midnight_world
    (Util.joinFilePath "logs" "app.log" +:+ "."
       +:+ Format (truncateToDay (now_of midnight_world))) = false /\
  names midnight_world !! Util.joinFilePath "logs" "app.log" = None /\
  exists s, NewDailyLogger "logs" "app.log" "" midnight_world
            = Panic nil_dereference s.
Proof.
  assert (H1 : dayOf (now_of midnight_world)
               < dayOf (clock midnight_world (S (reads midnight_world))))
    by (vm_compute; reflexivity).
  assert (H2 : dayOf (now_of midnight_world)
               < dayOf (clock midnight_world (S (S (reads midnight_world)))))
    by (vm_compute; reflexivity).
  assert (H3 : stat_ok midnight_world
                 (Util.joinFilePath "logs" "app.log" +:+ "."
                    +:+ Format (truncateToDay (now_of midnight_world))) = false)
    by (vm_compute; reflexivity).
  assert (H4 : names midnight_world !! Util.joinFilePath "logs" "app.log" = None)
    by (vm_compute; reflexivity).
  repeat (split; [assumption|]).
  destruct (NewDailyLogger_midnight_panic "logs" "app.log" "" midnight_world
              H1 H2 H3 H4) as (s & Hrun & _).
  exists s. exact Hrun.
Defined.

(** ** The monitor in daily mode *)

Lemma unlock_after_lock (f : FileLogger) :
  mu f = false -> with_mu false (with_mu true f) = f.
Proof. destruct f. cbn. now intros ->. Qed.

(** One check of a daily-mode logger whose backup path is taken. *)
Lemma fileCheck_behind_backup (s : State) (d : Time) :
  splitType (self s) = SplitType_Daily -> date (self s) = Some d ->
  mu (self s) = false ->
  stat_ok (sys s) (daily_backup (self s) d) = true ->
  exists w',
    fileCheck s = Ok tt {| self := self s; sys := w' |} /\ same_files (sys s) w'.
Proof.
  destruct s as [f w]. cbn [self sys]. intros Hs Hd Hmu Hstat.
  pose proof (isMustSplit_daily_run f w d Hs Hd) as Hpol.
  destruct (After (truncateToDay (now_of w)) d).
  - destruct (split_daily_idle (with_mu true f)
                (record EvLock (record (EvNow (now_of w)) (advance w))) d Hs Hd
                (or_introl Hstat)) as (w' & evs & Hrun & Hsame & _).
    exists (record EvUnlock w'). split.
    + unfold fileCheck, recovering.
      rewrite (fileCheck_body_rotates _ _ Hpol Hmu).
      change (locked {| self := f; sys := record (EvNow (now_of w)) (advance w) |})
        with {| self := with_mu true f;
                sys := record EvLock (record (EvNow (now_of w)) (advance w)) |}.
      rewrite Hrun. unfold unlocked. cbn [self sys].
      now rewrite (unlock_after_lock f Hmu).
    + exact Hsame.
  - exists (record (EvNow (now_of w)) (advance w)). split.
    + exact (fileCheck_idle _ _ Hpol).
    + unfold same_files. auto.
Qed.

(** Any number of such checks. *)
Lemma ticking_behind_backup (n : nat) (s : State) (d : Time) :
  splitType (self s) = SplitType_Daily -> date (self s) = Some d ->
  mu (self s) = false ->
  stat_ok (sys s) (daily_backup (self s) d) = true ->
  exists s',
    ticking n s = Ok tt s' /\ self s' = self s /\ same_files (sys s) (sys s').
Proof.
  revert s. induction n as [|n IH]; intros s Hs Hd Hmu Hstat.
  - exists s. split; [reflexivity|]. split; [reflexivity|]. unfold same_files. auto.
  - destruct (fileCheck_behind_backup s d Hs Hd Hmu Hstat) as (w1 & Hrun & Hsame).
    assert (Hstat1 : stat_ok w1 (daily_backup (self s) d) = true).
    { unfold stat_ok, is_file, is_dir in *.
      destruct Hsame as (Hdirs & Hnames & _). now rewrite Hdirs, Hnames. }
    destruct (IH {| self := self s; sys := w1 |} Hs Hd Hmu Hstat1)
      as (s2 & Hrun2 & Hself & Hsame2).
    exists s2.
    change (ticking (S n) s) with (bind fileCheck (fun _ => ticking n) s).
    rewrite (bind_Ok fileCheck (fun _ => ticking n) s _ tt Hrun).
    split; [exact Hrun2|]. split; [exact Hself|].
    cbn [self sys] in Hsame2. unfold same_files in *.
    destruct Hsame as (H1 & H2 & H3 & H4). destruct Hsame2 as (H5 & H6 & H7 & H8).
    repeat split; congruence.
Qed.

(** X14: a file at the backup path of the stored date blocks the daily
    rotation for good.  Whatever the clock says, every tick of the monitor
    returns with the logger exactly as it was (the stored date included)
    and with the directories, entries, lengths and descriptors unchanged:
    the active file is never renamed and the date never advances. *)
Theorem daily_monitor_stuck_behind_backup (n : nat) (s : State) (d : Time) :
  splitType (self s) = SplitType_Daily -> date (self s) = Some d ->
  mu (self s) = false ->
  stat_ok (sys s) (daily_backup (self s) d) = true ->
  exists s',
    fileMonitor n s = Ok tt s' /\ self s' = self s /\ same_files (sys s) (sys s').
Proof.
  intros Hs Hd Hmu Hstat.
  destruct (ticking_behind_backup n
              {| self := self s;
                 sys := record (EvTicker (wrap64 (DEFAULT_LOG_SCAN * Second))) (sys s) |}
              d Hs Hd Hmu Hstat) as (s' & Hrun & Hself & Hsame).
  exists s'. split.
  { unfold fileMonitor. rewrite (bind_Ok (mark _) _ s _ tt eq_refl). exact Hrun. }
  split; [exact Hself|exact Hsame].
Qed.

Lemma daily_monitor_stuck_behind_backup_witness :
  splitType (self archived_daily) = SplitType_Daily /\
  date (self archived_daily) = Some (truncateToDay 1700000000) /\
  mu (self archived_daily) = false /\
  stat_ok (sys archived_daily)
    (daily_backup (self archived_daily) (truncateToDay 1700000000)) = true /\
  exists s', fileMonitor 3 archived_daily = Ok tt s' /\
             date (self s') = Some (truncateToDay 1700000000).
Proof.
  assert (H : stat_ok (sys archived_daily)
                (daily_backup (self archived_daily) (truncateToDay 1700000000)) = true)
    by (vm_compute; reflexivity).
  split; [reflexivity|]. split; [reflexivity|]. split; [reflexivity|].
  split; [exact H|].
  destruct (daily_monitor_stuck_behind_backup 3 archived_daily
              (truncateToDay 1700000000) eq_refl eq_refl eq_refl H)
    as (s' & Hrun & Hself & _).
  exists s'. split; [exact Hrun|]. rewrite Hself. reflexivity.
Defined.

(** ** More on a rotation by size *)

(** X15: a rotation by size does not look whether there is an active file
    to move.  When the active path names nothing, the backup at the next
    index is removed all the same and nothing takes its place: afterwards
    that backup path names no file, and the active path is at size 0. *)
Theorem size_split_without_active_file (s : State) :
  splitType (self s) = SplitType_Size -> fileCount (self s) <> 0 ->
  names (sys s) !! logFilePath (self s) = None ->
  exists s',
    split s = Ok tt s' /\
    suffix (self s') = next_index (self s) /\
    names (sys s') !! backup_path (self s) (next_index (self s)) = None /\
    on_disk_size (sys s') (logFilePath (self s)) = 0.
Proof.
  destruct s as [f w]. cbn [self sys]. intros Hs Hc Hact.
  destruct (split_size_world f w Hs Hc) as (W & Hrun & Hfree & Hbak & _).
  eexists. split; [exact Hrun|]. cbn [self sys suffix with_lg with_logFile with_suffix].
  split; [reflexivity|]. split.
  - change (names (record ?e ?w0)) with (names w0).
    rewrite opening_other_names by apply backup_path_differs.
    now rewrite Hbak.
  - exact (opening_absent_size true (logFilePath f) W Hfree).
Qed.

Lemma size_split_without_active_file_witness :
  splitType (self {| self := size_logger 0 3 0; sys := bare_world |}) = SplitType_Size /\
  fileCount (self {| self := size_logger 0 3 0; sys := bare_world |}) <> 0 /\
  names bare_world !! logFilePath (size_logger 0 3 0) = None /\
  exists s', split {| self := size_logger 0 3 0; sys := bare_world |} = Ok tt s' /\
             suffix (self s') = 1.
Proof.
  assert (Hc : fileCount (self {| self := size_logger 0 3 0; sys := bare_world |}) <> 0)
    by discriminate.
  assert (Ha : names bare_world !! logFilePath (size_logger 0 3 0) = None)
    by (vm_compute; reflexivity).
  split; [reflexivity|]. split; [exact Hc|]. split; [exact Ha|].
  destruct (size_split_without_active_file
              {| self := size_logger 0 3 0; sys := bare_world |} eq_refl Hc Ha)
    as (s' & Hrun & Hx & _).
  exists s'. split; [exact Hrun|]. rewrite Hx. vm_compute. reflexivity.
Defined.

(** The descriptors at the point where [split], in size mode, creates the
    new active file. *)
Lemma split_size_handles (f : FileLogger) (w : World) :
  splitType f = SplitType_Size -> fileCount f <> 0 ->
  exists W,
    split {| self := f; sys := w |} =
    Ok tt {| self := with_lg
                       (Some (log_New (handle_for W (logFilePath f))
                                (prefix f) logger_flags))
                       (with_logFile (handle_for W (logFilePath f))
                          (with_suffix (next_index f) f));
             sys := record (EvCreate (logFilePath f))
                      (opening true (logFilePath f) W) |} /\
    opened W = match logFile f with
               | Some h => delete (fd h) (opened w)
               | None => opened w
               end /\
    next_fd W = next_fd w.
Proof.
  intros Hs Hc. destruct w as [d n i o ni nf c r t].
  unfold split, next_index. unfold_calls. cbn. rewrite Hs.
  destruct (fileCount f =? 0) eqn:E; [lia|]. cbn.
  destruct (logFile f) as [file|]; cbn;
    (destruct (stat_ok _ _) eqn:Hstat; cbn;
     (eexists; split; [reflexivity|]; cbn; split; reflexivity)).
Qed.

(** X16: a rotation by size trades the handle for a new one.  The
    descriptor the logger held is closed, no other descriptor is touched
    but the one the new file is opened on, the logger holds that new
    handle (or none, when the file could not be created), and the
    line-writer is rebuilt on it with the same prefix. *)
Theorem size_split_swaps_handle (s : State) (h : File) :
  splitType (self s) = SplitType_Size -> fileCount (self s) <> 0 ->
  logFile (self s) = Some h -> fd h <> next_fd (sys s) ->
  exists s',
    split s = Ok tt s' /\
    opened (sys s') !! fd h = None /\
    (forall k, k <> fd h -> k <> next_fd (sys s) ->
               opened (sys s') !! k = opened (sys s) !! k) /\
    (logFile (self s') = None \/
     logFile (self s') = Some (mkFile (next_fd (sys s))) /\
     is_Some (opened (sys s') !! next_fd (sys s))) /\
    lg (self s') = Some (log_New (logFile (self s')) (prefix (self s)) logger_flags).
Proof.
  destruct s as [f w]. cbn [self sys]. intros Hs Hc Hfile Hfd.
  destruct (split_size_handles f w Hs Hc) as (W & Hrun & Ho & Hnf).
  rewrite Hfile in Ho.
  eexists. split; [exact Hrun|].
  cbn [self sys logFile lg with_lg with_logFile with_suffix].
  change (opened (record ?e ?w0)) with (opened w0).
  unfold handle_for, opening. cbn [opened].
  destruct (inode_for W (logFilePath f)) as [ino|]; rewrite Ho, ?Hnf.
  - split; [lookups; reflexivity|]. split.
    + intros k Hk1 Hk2. lookups. reflexivity.
    + split; [|reflexivity]. right. split; [reflexivity|]. lookups. eauto.
  - split; [lookups; reflexivity|]. split.
    + intros k Hk1 Hk2. lookups. reflexivity.
    + split; [now left|reflexivity].
Qed.

Lemma size_split_swaps_handle_witness :
  splitType (self {| self := with_logFile (Some (mkFile 0)) (size_logger 0 3 1024);
                     sys := later_world |}) = SplitType_Size /\
  fileCount (size_logger 0 3 1024) <> 0 /\
  0%nat <> next_fd later_world /\
  exists s', split {| self := with_logFile (Some (mkFile 0)) (size_logger 0 3 1024);
                      sys := later_world |} = Ok tt s' /\
             opened (sys s') !! 0%nat = None.
Proof.
  assert (Hc : fileCount (size_logger 0 3 1024) <> 0) by discriminate.
  assert (Hfd : 0%nat <> next_fd later_world) by discriminate.
  split; [reflexivity|]. split; [exact Hc|]. split; [exact Hfd|].
  destruct (size_split_swaps_handle
              {| self := with_logFile (Some (mkFile 0)) (size_logger 0 3 1024);
                 sys := later_world |} (mkFile 0) eq_refl Hc eq_refl Hfd)
    as (s' & Hrun & Hclosed & _).
  exists s'. split; [exact Hrun|exact Hclosed].
Defined.
